(** * AutoPruneStrategy: the automatic pruning search strategy

    A shallow embedding of
    [python/paddle/fluid/contrib/slim/prune/auto_prune_strategy.py]:
    the ratio/token codec, the constraint evaluator, the uniform-ratio
    binary search and the epoch hooks, over explicit state.

    Python floats are binary64 numbers: they are modelled by Rocq's
    primitive floats, which compute with the same IEEE 754 arithmetic.
    Python ints are [Z].  Dictionaries are [gmap]s.  A hook is a function
    from the state of the objects it touches (the strategy [self], the
    [context], the controller) to an outcome and the state it leaves
    behind; an exception keeps the mutations made before it. *)

From Stdlib Require Import ZArith QArith Qround Lia Lqa Ascii String.
From Stdlib Require Import Floats.PrimFloat Floats.FloatOps Floats.SpecFloat.
From Stdlib Require Import Floats.FloatAxioms.
From stdpp Require Import base option list gmap strings.

(* A decimal literal denotes the nearest binary64 number, in Python as here. *)
#[local] Set Warnings "-inexact-float".

#[local] Open Scope Z_scope.

(** ** Outcomes of a call *)

(** The exceptions the modelled code can raise. *)
Inductive exn : Set :=
  | ZeroDivisionError
  | OverflowError
  | ValueError
  | AttributeError
  | KeyError
  | IndexError
  | TypeError.

(** [Ok v]: the call returned [v].  [Raise e]: it raised [e].
    [Running]: it has not returned within the iteration budget given to the
    model of a [while] loop (the source has no such budget). *)
Inductive res (A : Type) : Type :=
  | Ok (v : A)
  | Raise (e : exn)
  | Running.
Arguments Ok {A} v.
Arguments Raise {A} e.
Arguments Running {A}.

Definition res_bind {A B} (r : res A) (k : A -> res B) : res B :=
  match r with
  | Ok v => k v
  | Raise e => Raise e
  | Running => Running
  end.

Fixpoint res_map {A B} (f : A -> res B) (l : list A) : res (list B) :=
  match l with
  | [] => Ok []
  | x :: l' =>
      res_bind (f x) (fun y => res_bind (res_map f l') (fun ys => Ok (y :: ys)))
  end.

(** ** Python numbers *)

Module PyFloat.

(** [float(n)] for an int [n], also the conversion of an int operand of a
    float operation: the nearest binary64 number, ties to even;
    OverflowError when [n] is too large in magnitude. *)
Definition of_int (n : Z) : res float :=
  match binary_normalize prec emax n 0 false with
  | S754_infinity _ => Raise OverflowError
  | sf => Ok (SF2Prim sf)
  end.

(** [int(x)] for a float [x]: truncation towards zero; ValueError on a
    NaN, OverflowError on an infinity. *)
Definition to_int (x : float) : res Z :=
  match Prim2SF x with
  | S754_zero _ => Ok 0
  | S754_infinity _ => Raise OverflowError
  | S754_nan => Raise ValueError
  | S754_finite s m e =>
      let v := if 0 <=? e then Z.pos m * 2 ^ e else Z.pos m / 2 ^ (- e) in
      Ok (if s then - v else v)
  end.

(** [n * y] for an int [n] and a float [y]. *)
Definition int_mul (n : Z) (y : float) : res float :=
  res_bind (of_int n) (fun x => Ok (x * y)%float).

(** [x / n] for a float [x] and an int [n]. *)
Definition div_int (x : float) (n : Z) : res float :=
  res_bind (of_int n) (fun y =>
    if n =? 0 then Raise ZeroDivisionError else Ok (x / y)%float).

(** The exact value of a finite float, as a rational. *)
Definition to_Q (x : float) : option Q :=
  match Prim2SF x with
  | S754_zero _ => Some 0%Q
  | S754_finite s m e =>
      let v := if 0 <=? e then inject_Z (Z.pos m * 2 ^ e)
               else Qmake (Z.pos m) (Z.to_pos (2 ^ (- e))) in
      Some (if s then Qopp v else v)
  | _ => None
  end.

End PyFloat.

(** ** The ratio/token codec (lines 117-125) *)

(** [_ratios_to_tokens]: [[int(ratio / 0.01) for ratio in ratios]]. *)
Definition _ratios_to_tokens (ratios : list float) : res (list Z) :=
  res_map (fun ratio => PyFloat.to_int (ratio / 0.01)%float) ratios.

(** [_tokens_to_ratios]: [[token * 0.01 for token in tokens]]. *)
Definition _tokens_to_ratios (tokens : list Z) : res (list float) :=
  res_map (fun token => PyFloat.int_mul token 0.01%float) tokens.

(** ** The objects the strategy works on *)

(** The shape of a variable and the data of a tensor. *)
Definition shape := list Z.
Definition Tensor := list float.

(** Modelled from the spec: the graph collaborator (section 6, "Graph";
    GraphWrapper is not among the sources).  It enumerates its parameters
    in a fixed order, keeps a shape for each variable, and keeps the
    grouping metadata of its convolutions, which [update_groups_of_conv]
    recomputes from the shapes. *)
Record Graph := mkGraph {
  all_parameters : list string;
  var_shape : gmap string shape;
  conv_groups : gmap string Z
}.

(** Modelled from the spec: what the graph collaborator computes (section 1
    leaves out how): the FLOPs count and the total parameter count of a
    graph, and the grouping metadata that fits given shapes. *)
Class GraphWrapper := {
  flops : Graph -> Z;
  numel_params : Graph -> Z;
  groups_of : gmap string shape -> gmap string Z
}.

(** [graph.var(name).set_shape(s)]. *)
Definition set_shape (g : Graph) (name : string) (s : shape) : Graph :=
  mkGraph (all_parameters g) (<[name := s]> (var_shape g)) (conv_groups g).

(** [graph.update_groups_of_conv()]. *)
Definition update_groups_of_conv `{GraphWrapper} (g : Graph) : Graph :=
  mkGraph (all_parameters g) (var_shape g) (groups_of (var_shape g)).

(** What a run of the pruner leaves: the shapes and the tensors after it,
    and the entries it wrote to the two backup dictionaries it was given
    (prior tensor values, prior shapes). *)
Record Pruned := mkPruned {
  pruned_shapes : gmap string shape;
  pruned_scope : gmap string Tensor;
  tensor_backup : gmap string Tensor;
  shape_backup : gmap string shape
}.

(** Modelled from the spec: the pruning transform (section 6,
    "Pruner/transform"; [PruneStrategy._prune_parameters] is inherited from
    a class that is not among the sources).  It is given the graph-only
    flag, the graph, the scope, the parameter names and the ratios. *)
Class Pruner := {
  prune : bool -> Graph -> gmap string Tensor -> list string -> list float -> Pruned
}.

(** The contract of section 4.5: the ledger is exhaustive.  Writing the
    recorded entries back over what the transform left gives the shapes and
    the tensors it started from. *)
Class PrunerRecords `{Pruner} : Prop := {
  shape_backup_exhaustive : forall only_graph g sc params ratios,
    shape_backup (prune only_graph g sc params ratios)
      ∪ pruned_shapes (prune only_graph g sc params ratios) = var_shape g;
  tensor_backup_exhaustive : forall only_graph g sc params ratios,
    tensor_backup (prune only_graph g sc params ratios)
      ∪ pruned_scope (prune only_graph g sc params ratios) = sc
}.

(** Section 4.2: a graph-only run updates shapes and touches no tensor. *)
Class PrunerGraphOnly `{Pruner} : Prop := {
  graph_only_keeps_scope : forall g sc params ratios,
    pruned_scope (prune true g sc params ratios) = sc
}.

(** Modelled from the spec: the search controller (section 6,
    "Controller"), a state of its own with [reset], [next_tokens], [update]
    and the [_best_tokens] attribute.  [update] is handed the value of
    [self._current_tokens], which is Python's None before the first
    proposal. *)
Class Controller := {
  ctl : Type;
  reset : ctl -> list Z -> list Z -> ctl;
  next_tokens : ctl -> list Z * ctl;
  update : ctl -> option (list Z) -> float -> ctl;
  _best_tokens : ctl -> list Z
}.

(** The calls made to the controller, oldest first. *)
Inductive CtlCall :=
  | CallReset (range_table tokens : list Z)
  | CallNextTokens
  | CallUpdate (tokens : option (list Z)) (reward : float).

(** [re.match(pattern, name)] finds a match at the start of [name]. *)
Class Matcher := { re_match : string -> string -> bool }.

(** The search context (section 3, "SearchContext"); the placement handle
    is passed through to the collaborators and is left out. *)
Record Context := mkContext {
  eval_graph : Graph;
  optimize_graph : Graph;
  scope : gmap string Tensor;
  epoch_id : Z;
  eval_results : gmap string (list float);
  skip_training : bool;
  (* how many times [optimize_graph.compile] rebuilt the executable form *)
  compiled : nat
}.

(** The attributes of an [AutoPruneStrategy].  The two ledgers are created
    by [on_epoch_begin]: before that the attribute does not exist ([None]).
    [param_backup], without the underscore, is read at line 227 and set
    nowhere in this class: it is whatever the base class provides. *)
Record Strategy := mkStrategy {
  start_epoch : Z;
  end_epoch : Z;
  pruned_params : string;
  _max_ratio : float;
  _min_ratio : float;
  _metric_name : string;
  _pruned_param_names : list string;
  _retrain_epoch : Z;
  _current_tokens : option (list Z);
  _range_table : option (list Z);
  _param_backup : option (gmap string Tensor);
  _param_shape_backup : option (gmap string shape);
  param_backup : option (gmap string Tensor)
}.

(** [AutoPruneStrategy.__init__] (lines 33-65); [inherited] is the
    [param_backup] attribute of the base class, if it has one. *)
Definition __init__ (start_epoch end_epoch : Z) (min_ratio max_ratio : float)
    (metric_name pruned_params : string) (retrain_epoch : Z)
    (inherited : option (gmap string Tensor)) : Strategy :=
  {| start_epoch := start_epoch;
     end_epoch := end_epoch;
     pruned_params := pruned_params;
     _max_ratio := max_ratio;
     _min_ratio := min_ratio;
     _metric_name := metric_name;
     _pruned_param_names := [];
     _retrain_epoch := 0;
     _current_tokens := None;
     _range_table := None;
     _param_backup := None;
     _param_shape_backup := None;
     param_backup := inherited |}.

(** Attribute assignments on [self] and on [context]. *)
Definition set_pruned_param_names (v : list string) (st : Strategy) : Strategy :=
  mkStrategy (start_epoch st) (end_epoch st) (pruned_params st) (_max_ratio st)
    (_min_ratio st) (_metric_name st) v (_retrain_epoch st) (_current_tokens st)
    (_range_table st) (_param_backup st) (_param_shape_backup st) (param_backup st).

Definition set_current_tokens (v : option (list Z)) (st : Strategy) : Strategy :=
  mkStrategy (start_epoch st) (end_epoch st) (pruned_params st) (_max_ratio st)
    (_min_ratio st) (_metric_name st) (_pruned_param_names st) (_retrain_epoch st) v
    (_range_table st) (_param_backup st) (_param_shape_backup st) (param_backup st).

Definition set_range_table (v : option (list Z)) (st : Strategy) : Strategy :=
  mkStrategy (start_epoch st) (end_epoch st) (pruned_params st) (_max_ratio st)
    (_min_ratio st) (_metric_name st) (_pruned_param_names st) (_retrain_epoch st)
    (_current_tokens st) v (_param_backup st) (_param_shape_backup st) (param_backup st).

Definition set_param_backup (v : gmap string Tensor) (st : Strategy) : Strategy :=
  mkStrategy (start_epoch st) (end_epoch st) (pruned_params st) (_max_ratio st)
    (_min_ratio st) (_metric_name st) (_pruned_param_names st) (_retrain_epoch st)
    (_current_tokens st) (_range_table st) (Some v) (_param_shape_backup st)
    (param_backup st).

Definition set_param_shape_backup (v : gmap string shape) (st : Strategy) : Strategy :=
  mkStrategy (start_epoch st) (end_epoch st) (pruned_params st) (_max_ratio st)
    (_min_ratio st) (_metric_name st) (_pruned_param_names st) (_retrain_epoch st)
    (_current_tokens st) (_range_table st) (_param_backup st) (Some v)
    (param_backup st).

Definition set_eval_graph (g : Graph) (c : Context) : Context :=
  mkContext g (optimize_graph c) (scope c) (epoch_id c) (eval_results c)
    (skip_training c) (compiled c).

Definition set_optimize_graph (g : Graph) (c : Context) : Context :=
  mkContext (eval_graph c) g (scope c) (epoch_id c) (eval_results c)
    (skip_training c) (compiled c).

Definition set_scope (sc : gmap string Tensor) (c : Context) : Context :=
  mkContext (eval_graph c) (optimize_graph c) sc (epoch_id c) (eval_results c)
    (skip_training c) (compiled c).

Definition set_skip_training (b : bool) (c : Context) : Context :=
  mkContext (eval_graph c) (optimize_graph c) (scope c) (epoch_id c)
    (eval_results c) b (compiled c).

(** [context.optimize_graph.compile(mem_opt=True)]. *)
Definition compile (c : Context) : Context :=
  mkContext (eval_graph c) (optimize_graph c) (scope c) (epoch_id c)
    (eval_results c) (skip_training c) (S (compiled c)).

(** The two graphs of a context. *)
Inductive which := EvalGraph | OptimizeGraph.

Definition graph_of (w : which) (c : Context) : Graph :=
  match w with EvalGraph => eval_graph c | OptimizeGraph => optimize_graph c end.

Definition set_graph (w : which) (g : Graph) (c : Context) : Context :=
  match w with
  | EvalGraph => set_eval_graph g c
  | OptimizeGraph => set_optimize_graph g c
  end.

(** [1 - float(n) / d] for two ints, as lines 105 and 150-152 compute it. *)
Definition one_minus_quotient (n d : Z) : res float :=
  res_bind (PyFloat.of_int n) (fun x =>
  res_bind (PyFloat.div_int x d) (fun q => Ok (1 - q)%float)).

(** Modelled from the spec: [PruneStrategy._prune_graph(graph, target)]
    (section 4.4, step 4; the base class is not among the sources) gives
    every parameter of [target] its shape in [graph] too. *)
Definition _prune_graph (g target : Graph) : Graph :=
  foldl (fun acc name =>
           match var_shape target !! name with
           | Some s => set_shape acc name s
           | None => acc
           end) g (all_parameters target).

(** ** Computations on a state *)

(** A computation on a state [S] returns, raises or is still running, and
    leaves a state behind in each case. *)
Definition M (S A : Type) : Type := S -> res A * S.

Definition ret {S A} (v : A) : M S A := fun s => (Ok v, s).

Definition bind {S A B} (m : M S A) (k : A -> M S B) : M S B :=
  fun s =>
    match m s with
    | (Ok v, s') => k v s'
    | (Raise e, s') => (Raise e, s')
    | (Running, s') => (Running, s')
    end.

Definition lift {S A} (r : res A) : M S A := fun s => (r, s).
Definition raise {S A} (e : exn) : M S A := lift (Raise e).
Definition gets {S A} (f : S -> A) : M S A := fun s => (Ok (f s), s).
Definition modify {S} (f : S -> S) : M S unit := fun s => (Ok tt, f s).

Declare Scope M_scope.
Delimit Scope M_scope with M.
Notation "x <- y ; z" := (bind y (fun x => z))
  (at level 20, y at level 100, z at level 200, only parsing) : M_scope.
Notation "y ;; z" := (bind y (fun _ => z))
  (at level 100, z at level 200, only parsing, right associativity) : M_scope.
#[local] Open Scope M_scope.

(** A [for] loop. *)
Fixpoint for_each {S A} (l : list A) (body : A -> M S unit) : M S unit :=
  match l with
  | [] => ret tt
  | x :: l' => body x ;; for_each l' body
  end.

Section AutoPruneStrategy.
Context `{GraphWrapper, Pruner, Controller, Matcher}.

(** The objects a hook reads and writes. *)
Record State := mkState {
  self : Strategy;
  context : Context;
  controller : ctl;
  calls : list CtlCall
}.

Definition on_self (f : Strategy -> Strategy) : M State unit :=
  modify (fun s => mkState (f (self s)) (context s) (controller s) (calls s)).
Definition on_context (f : Context -> Context) : M State unit :=
  modify (fun s => mkState (self s) (f (context s)) (controller s) (calls s)).

(** Reading an attribute that may not exist. *)
Definition attr {A} (f : Strategy -> option A) : M State A :=
  fun s => (match f (self s) with Some v => Ok v | None => Raise AttributeError end, s).

(** [self._prune_parameters(graph, scope, params, ratios, place, ...)]:
    the transform applied to one graph of the context, in place. *)
Definition _prune_parameters (w : which) (params : list string)
    (ratios : list float) (only_graph : bool) : M State Pruned :=
  c <- gets context;
  let g := graph_of w c in
  let p := prune only_graph g (scope c) params ratios in
  on_context (fun c =>
    set_scope (pruned_scope p)
      (set_graph w (mkGraph (all_parameters g) (pruned_shapes p) (conv_groups g)) c)) ;;
  ret p.

(** [for param in backup.keys(): graph.var(param).set_shape(backup[param])]. *)
Definition restore_shapes (w : which) (backup : gmap string shape) : M State unit :=
  for_each (map_to_list backup) (fun kv =>
    on_context (fun c => set_graph w (set_shape (graph_of w c) kv.1 kv.2) c)).

Definition on_graph (w : which) (f : Graph -> Graph) : M State unit :=
  on_context (fun c => set_graph w (f (graph_of w c)) c).

(** The three calls to [self._controller], each added to the log. *)
Definition controller_reset (range_table tokens : list Z) : M State unit :=
  modify (fun s => mkState (self s) (context s)
                     (reset (controller s) range_table tokens)
                     (calls s ++ [CallReset range_table tokens])).

Definition controller_next_tokens : M State (list Z) :=
  fun s => (Ok (next_tokens (controller s)).1,
            mkState (self s) (context s) (next_tokens (controller s)).2
              (calls s ++ [CallNextTokens])).

Definition controller_update (tokens : option (list Z)) (reward : float)
    : M State unit :=
  modify (fun s => mkState (self s) (context s)
                     (update (controller s) tokens reward)
                     (calls s ++ [CallUpdate tokens reward])).

(** [_constrain_func] (lines 87-109). *)
Definition _constrain_func (tokens : list Z) : M State bool :=
  ori_flops <- gets (fun s => flops (eval_graph (context s)));
  ratios <- lift (_tokens_to_ratios tokens);
  params <- gets (fun s => _pruned_param_names (self s));
  p <- _prune_parameters EvalGraph params ratios true;
  let param_shape_backup := shape_backup p in
  on_graph EvalGraph update_groups_of_conv ;;
  flops' <- gets (fun s => flops (eval_graph (context s)));
  restore_shapes EvalGraph param_shape_backup ;;
  flops_ratio <- lift (one_minus_quotient flops' ori_flops);
  min_ratio <- gets (fun s => _min_ratio (self s));
  max_ratio <- gets (fun s => _max_ratio (self s));
  if (min_ratio <=? flops_ratio)%float && (flops_ratio <=? max_ratio)%float
  then ret true
  else ret false.

(** The local variables of [_get_uniform_ratios] that outlive an
    iteration of its loop. *)
Record Locals := mkLocals {
  min_ratio : float;
  max_ratio : float;
  ratios : option (list float);
  pruned_flops : option float
}.

(** How an iteration of the loop ends: through [break], or at the end of
    its body with the interval narrowed. *)
Inductive step := Break (l : Locals) | Next (l : Locals).

(** The body of the [while] loop of [_get_uniform_ratios] (lines
    138-162). *)
Definition iteration (target : float) (flops0 model_size : Z) (l : Locals)
    : M State step :=
  let ratio := ((max_ratio l + min_ratio l) / 2)%float in
  names <- gets (fun s => _pruned_param_names (self s));
  let ratios := repeat ratio (length names) in
  p <- _prune_parameters EvalGraph names ratios true;
  let param_shape_backup := shape_backup p in
  fl <- gets (fun s => flops (eval_graph (context s)));
  pruned_flops <- lift (one_minus_quotient fl flops0);
  size <- gets (fun s => numel_params (eval_graph (context s)));
  pruned_size <- lift (one_minus_quotient size model_size);
  restore_shapes EvalGraph param_shape_backup ;;
  if (abs (pruned_flops - target) <? 0.01)%float then
    ret (Break (mkLocals (min_ratio l) (max_ratio l) (Some ratios) (Some pruned_flops)))
  else if (target <? pruned_flops)%float then
    ret (Next (mkLocals (min_ratio l) ratio (Some ratios) (Some pruned_flops)))
  else
    ret (Next (mkLocals ratio (max_ratio l) (Some ratios) (Some pruned_flops))).

(** The [while] loop (line 137), run for at most [fuel] iterations. *)
Fixpoint uniform_search (fuel : nat) (target : float) (flops0 model_size : Z)
    (l : Locals) : M State Locals :=
  if (min_ratio l <? max_ratio l)%float then
    match fuel with
    | O => lift Running
    | S fuel' =>
        r <- iteration target flops0 model_size l;
        match r with
        | Break l' => ret l'
        | Next l' => uniform_search fuel' target flops0 model_size l'
        end
    end
  else ret l.

(** The FLOPs the evaluation graph has left once every selected parameter
    is pruned, graph-only, by the same [ratio]; and the FLOPs reduction
    this is against [flops0], as line 150 computes it. *)
Definition remaining_flops (s : State) (ratio : float) : Z :=
  let g := eval_graph (context s) in
  let names := _pruned_param_names (self s) in
  let p := prune true g (scope (context s)) names (repeat ratio (length names)) in
  flops (mkGraph (all_parameters g) (pruned_shapes p) (conv_groups g)).

Definition reduction (s : State) (flops0 : Z) (ratio : float) : res float :=
  one_minus_quotient (remaining_flops s ratio) flops0.

(** The first [k] iterations of the loop: [Break] when the loop is over
    within them, [Next] when it is not. *)
Fixpoint steps (k : nat) (target : float) (flops0 model_size : Z)
    (l : Locals) : M State step :=
  match k with
  | O => ret (Next l)
  | S k' =>
      if (min_ratio l <? max_ratio l)%float then
        r <- iteration target flops0 model_size l;
        match r with
        | Break l' => ret (Break l')
        | Next l' => steps k' target flops0 model_size l'
        end
      else ret (Break l)
  end.

(** The target of the search (line 133). *)
Definition target_of (st : Strategy) : float :=
  ((_min_ratio st + _max_ratio st) / 2)%float.

(** The locals before the loop (lines 131-136). *)
Definition initial_locals : Locals := mkLocals 0 1 None None.

(** [_get_uniform_ratios] (lines 127-164); the log line formats the
    ratios, which fails on [None]. *)
Definition _get_uniform_ratios (fuel : nat) : M State (list float) :=
  target <- gets (fun s => target_of (self s));
  flops0 <- gets (fun s => flops (eval_graph (context s)));
  model_size <- gets (fun s => numel_params (eval_graph (context s)));
  l <- uniform_search fuel target flops0 model_size initial_locals;
  match ratios l with
  | Some ratios => ret ratios
  | None => raise TypeError
  end.

(** [_get_init_tokens] (lines 111-115). *)
Definition _get_init_tokens (fuel : nat) : M State (list Z) :=
  ratios <- _get_uniform_ratios fuel;
  lift (_ratios_to_tokens ratios).

(** [on_compression_begin] (lines 67-85).  The constraint callable handed
    to [reset] is [_constrain_func] bound to the context. *)
Definition on_compression_begin (fuel : nat) : M State unit :=
  params <- gets (fun s => all_parameters (eval_graph (context s)));
  for_each params (fun name =>
    pattern <- gets (fun s => pruned_params (self s));
    if re_match pattern name then
      on_self (fun st => set_pruned_param_names (_pruned_param_names st ++ [name]) st)
    else ret tt) ;;
  tokens <- _get_init_tokens fuel;
  on_self (set_current_tokens (Some tokens)) ;;
  on_self (set_range_table (Some tokens)) ;;
  controller_reset tokens tokens.

(** The guards of the two hooks (lines 171-173 and 200-202). *)
Definition retrain_due (st : Strategy) (c : Context) : bool :=
  (_retrain_epoch st =? 0)
  || ((epoch_id c - start_epoch st) mod _retrain_epoch st =? 0).

Definition begin_guard (st : Strategy) (c : Context) : bool :=
  (start_epoch st <=? epoch_id c) && (epoch_id c <=? end_epoch st)
  && retrain_due st c.

Definition end_guard (st : Strategy) (c : Context) : bool :=
  (start_epoch st <=? epoch_id c) && (epoch_id c <? end_epoch st)
  && retrain_due st c.

(** Lines 188-192, 216-221 and 243-247: mirror the optimization graph to
    the evaluation graph, resync the groups, recompile. *)
Definition resync : M State unit :=
  on_context (fun c => set_eval_graph (_prune_graph (eval_graph c) (optimize_graph c)) c) ;;
  on_graph OptimizeGraph update_groups_of_conv ;;
  on_graph EvalGraph update_groups_of_conv ;;
  on_context compile.

(** [on_epoch_begin] (lines 166-193). *)
Definition on_epoch_begin : M State unit :=
  fires <- gets (fun s => begin_guard (self s) (context s));
  if fires : bool then
    proposal <- controller_next_tokens;
    on_self (set_current_tokens (Some proposal)) ;;
    params <- gets (fun s => _pruned_param_names (self s));
    tokens <- attr _current_tokens;
    ratios <- lift (_tokens_to_ratios tokens);
    on_self (set_param_shape_backup ∅) ;;
    on_self (set_param_backup ∅) ;;
    p <- _prune_parameters OptimizeGraph params ratios false;
    on_self (set_param_backup (tensor_backup p)) ;;
    on_self (set_param_shape_backup (shape_backup p)) ;;
    resync ;;
    retrain <- gets (fun s => _retrain_epoch (self s));
    on_context (set_skip_training (retrain =? 0))
  else ret tt.

(** Modelled from the spec: [_get_prune_ratios] (section 4.4, final
    commit, steps 2-3; the method is defined nowhere in the sources)
    pairs the selected parameters with the ratios the tokens decode to. *)
Definition _get_prune_ratios (tokens : list Z) : M State (list string * list float) :=
  params <- gets (fun s => _pruned_param_names (self s));
  ratios <- lift (_tokens_to_ratios tokens);
  ret (params, ratios).

(** [context.scope.find_var(name).get_tensor().set(value, place)]. *)
Definition set_tensor (name : string) (value : Tensor) : M State unit :=
  on_context (fun c => set_scope (<[name := value]> (scope c)) c).

(** Lines 207-209: [for param_name in self._param_backup.keys(): ...]. *)
Definition restore_tensors (backup : gmap string Tensor) : M State unit :=
  for_each (map_to_list backup) (fun kv => set_tensor kv.1 kv.2).

(** The search branch of [on_epoch_end] (lines 203-221). *)
Definition report_and_restore : M State unit :=
  results <- gets (fun s => eval_results (context s));
  metric <- gets (fun s => _metric_name (self s));
  history <- match results !! metric with
             | Some history => ret history
             | None => raise KeyError
             end;
  reward <- match last history with
            | Some reward => ret reward
            | None => raise IndexError
            end;
  tokens <- gets (fun s => _current_tokens (self s));
  controller_update tokens reward ;;
  backup <- attr _param_backup;
  restore_tensors backup ;;
  on_self (set_param_backup ∅) ;;
  shape_backup <- attr _param_shape_backup;
  restore_shapes OptimizeGraph shape_backup ;;
  on_self (set_param_shape_backup ∅) ;;
  resync.

(** The final branch of [on_epoch_end] (lines 224-249).  Line 227 reads
    [self.param_backup], not [self._param_backup]. *)
Definition final_commit : M State unit :=
  backup <- attr _param_backup;
  for_each (map_to_list backup) (fun kv =>
    inherited <- attr param_backup;
    match inherited !! kv.1 with
    | Some value => set_tensor kv.1 value
    | None => raise KeyError
    end) ;;
  shape_backup <- attr _param_shape_backup;
  for_each (map_to_list shape_backup) (fun kv =>
    on_graph EvalGraph (fun g => set_shape g kv.1 kv.2) ;;
    on_graph OptimizeGraph (fun g => set_shape g kv.1 kv.2)) ;;
  on_graph OptimizeGraph update_groups_of_conv ;;
  on_graph EvalGraph update_groups_of_conv ;;
  best <- gets (fun s => _best_tokens (controller s));
  pr <- _get_prune_ratios best;
  _prune_parameters OptimizeGraph pr.1 pr.2 false ;;
  resync ;;
  on_context (set_skip_training false).

(** [on_epoch_end] (lines 195-249). *)
Definition on_epoch_end : M State unit :=
  fires <- gets (fun s => end_guard (self s) (context s));
  if fires : bool then report_and_restore
  else
    final <- gets (fun s => epoch_id (context s) =? end_epoch (self s));
    if final : bool then final_commit else ret tt.
End AutoPruneStrategy.

Arguments State {_}.
Arguments mkState {_} _ _ _ _.

(** ** Notions for the statements below *)

Section Notions.
Context `{GraphWrapper, Pruner, Controller, Matcher}.

(** The graph-only run that [_constrain_func] makes for given ratios. *)
Definition trial_of (s : State) (ratios : list float) : Pruned :=
  prune true (eval_graph (context s)) (scope (context s))
    (_pruned_param_names (self s)) ratios.

(** The state [_constrain_func] leaves, whatever it returns: the shapes
    written back from its ledger, and the groups computed from the pruned
    shapes. *)
Definition after_constrain (s : State) (ratios : list float) : State :=
  let g := eval_graph (context s) in
  let p := trial_of s ratios in
  mkState (self s)
    (set_eval_graph
       (mkGraph (all_parameters g) (shape_backup p ∪ pruned_shapes p)
          (groups_of (pruned_shapes p)))
       (set_scope (pruned_scope p) (context s)))
    (controller s) (calls s).

(** However [m] ends, the state it leaves is related by [R] to the state
    it started from. *)
Definition respects (R : State -> State -> Prop) {A} (m : M State A) : Prop :=
  forall s, R s (m s).2.

(** The strategy, the controller and the log of its calls are as before:
    only the context was written to. *)
Definition same_strategy (s s' : State) : Prop :=
  self s' = self s /\ controller s' = controller s /\ calls s' = calls s.

(** The evaluation graph enumerates the parameters it did. *)
Definition same_parameters (s s' : State) : Prop :=
  all_parameters (eval_graph (context s')) = all_parameters (eval_graph (context s)).

(** How the body of the loop ends for a measured reduction [pf] (lines
    157-162). *)
Definition narrow (target : float) (l : Locals) (ratio : float)
    (ratios : list float) (pf : float) : step :=
  if (abs (pf - target) <? 0.01)%float then
    Break (mkLocals (min_ratio l) (max_ratio l) (Some ratios) (Some pf))
  else if (target <? pf)%float then
    Next (mkLocals (min_ratio l) ratio (Some ratios) (Some pf))
  else
    Next (mkLocals ratio (max_ratio l) (Some ratios) (Some pf)).

Definition midpoint (l : Locals) : float := ((max_ratio l + min_ratio l) / 2)%float.

(** The loop as [_get_uniform_ratios] runs it. *)
Definition search_of (fuel : nat) (s : State) : res Locals * State :=
  uniform_search fuel (target_of (self s)) (flops (eval_graph (context s)))
    (numel_params (eval_graph (context s))) initial_locals s.

(** The parameters of the evaluation graph that the pattern matches, in
    the order of the graph. *)
Definition matched (s : State) : list string :=
  List.filter (re_match (pruned_params (self s)))
    (all_parameters (eval_graph (context s))).

(** The state once lines 74-76 have run. *)
Definition resolved (s : State) : State :=
  mkState
    (set_pruned_param_names (_pruned_param_names (self s) ++ matched s) (self s))
    (context s) (controller s) (calls s).

(** The pruning that [on_epoch_begin] applies for given ratios. *)
Definition trial (s : State) (ratios : list float) : Pruned :=
  prune false (optimize_graph (context s)) (scope (context s))
    (_pruned_param_names (self s)) ratios.

(** The state [on_epoch_begin] leaves when it fires, for the proposal
    [tokens] that decodes to [ratios]. *)
Definition opened (s : State) (tokens : list Z) (ratios : list float) : State :=
  let c := context s in
  let p := trial s ratios in
  let og := mkGraph (all_parameters (optimize_graph c)) (pruned_shapes p)
              (conv_groups (optimize_graph c)) in
  mkState
    (set_param_shape_backup (shape_backup p)
       (set_param_backup (tensor_backup p)
          (set_current_tokens (Some tokens) (self s))))
    (mkContext
       (update_groups_of_conv (_prune_graph (eval_graph c) og))
       (update_groups_of_conv og)
       (pruned_scope p) (epoch_id c) (eval_results c)
       (_retrain_epoch (self s) =? 0) (S (compiled c)))
    (next_tokens (controller s)).2
    (calls s ++ [CallNextTokens]).

(** The state the search branch of [on_epoch_end] leaves when the metric
    has a latest value and the two ledgers exist. *)
Definition closed (s : State) (reward : float)
    (backup : gmap string Tensor) (shapes : gmap string shape) : State :=
  let c := context s in
  let og := mkGraph (all_parameters (optimize_graph c))
              (shapes ∪ var_shape (optimize_graph c))
              (conv_groups (optimize_graph c)) in
  mkState
    (set_param_shape_backup ∅ (set_param_backup ∅ (self s)))
    (mkContext
       (update_groups_of_conv (_prune_graph (eval_graph c) og))
       (update_groups_of_conv og)
       (backup ∪ scope c) (epoch_id c) (eval_results c)
       (skip_training c) (S (compiled c)))
    (update (controller s) (_current_tokens (self s)) reward)
    (calls s ++ [CallUpdate (_current_tokens (self s)) reward]).

(** The retrain interval of the strategy is as before. *)
Definition same_retrain (s s' : State) : Prop :=
  _retrain_epoch (self s') = _retrain_epoch (self s).

(** The states of a run: a strategy as constructed, with any context and
    controller; then the three hooks in any order, and whatever the
    training loop does to the context between them. *)
Inductive reachable (init : Strategy) : State -> Prop :=
  | reach_new c ct cl : reachable init (mkState init c ct cl)
  | reach_compression_begin fuel s :
      reachable init s -> reachable init (on_compression_begin fuel s).2
  | reach_epoch_begin s :
      reachable init s -> reachable init (on_epoch_begin s).2
  | reach_epoch_end s :
      reachable init s -> reachable init (on_epoch_end s).2
  | reach_training s c :
      reachable init s ->
      reachable init (mkState (self s) c (controller s) (calls s)).

Definition ledger_ok (shapes : gmap string shape) (sc : gmap string Tensor)
    (acc : Pruned) : Prop :=
  shape_backup acc ∪ pruned_shapes acc = shapes
  /\ tensor_backup acc ∪ pruned_scope acc = sc.

(** The state in the middle of an iteration of the search (between line
    148 and line 153): the evaluation graph pruned, graph-only, by [ratio]
    on every selected parameter, and nothing written back yet. *)
Definition probed (s : State) (ratio : float) : State :=
  let g := eval_graph (context s) in
  let p := trial_of s (repeat ratio (length (_pruned_param_names (self s)))) in
  mkState (self s)
    (set_scope (pruned_scope p)
       (set_eval_graph
          (mkGraph (all_parameters g) (pruned_shapes p) (conv_groups g))
          (context s)))
    (controller s) (calls s).

(** The state once [self._controller.update(self._current_tokens, reward)]
    has run (line 204). *)
Definition reported (s : State) (reward : float) : State :=
  mkState (self s) (context s)
    (update (controller s) (_current_tokens (self s)) reward)
    (calls s ++ [CallUpdate (_current_tokens (self s)) reward]).

(** The configuration given to the constructor is as before. *)
Definition same_config (s s' : State) : Prop :=
  start_epoch (self s') = start_epoch (self s)
  /\ end_epoch (self s') = end_epoch (self s)
  /\ _min_ratio (self s') = _min_ratio (self s)
  /\ _max_ratio (self s') = _max_ratio (self s)
  /\ _metric_name (self s') = _metric_name (self s)
  /\ pruned_params (self s') = pruned_params (self s).
End Notions.

(** ** The codec as the specification words it

    Section 4.1 of the specification reads the codec over real numbers:
    [ratio_to_token(r) = floor(r / 0.01)] and [token_to_ratio(t) = t * 0.01].
    These are its words, over exact rationals, to be compared with the
    binary64 code above. *)
Definition ratio_to_token (r : Q) : Z := Qfloor (r / (1 # 100)).
Definition token_to_ratio (t : Z) : Q := inject_Z t * (1 # 100).

(** The ratio with two decimals [k / 100], as binary64 arithmetic gives it
    (the value of the literal [0.35] for [k = 35]). *)
Definition hundredth (k : Z) : float :=
  (SF2Prim (binary_normalize prec emax k 0 false) / 100)%float.

(** The test behind the binary64 round trip on a two-decimal ratio: the
    token is [k] or [k - 1], and the decoded ratio is within
    [0.01 + 2^-52] of the ratio. *)
Definition round_trip_near (k : Z) : bool :=
  match _ratios_to_tokens [hundredth k] with
  | Ok [t] =>
      match _tokens_to_ratios [t], PyFloat.to_Q (hundredth k) with
      | Ok [r'], Some q =>
          match PyFloat.to_Q r' with
          | Some q' =>
              ((t =? k) || (t =? k - 1))
              && Qle_bool (q' - q) (1 # 2 ^ 52)
              && Qle_bool (q - q') ((1 # 100) + (1 # 2 ^ 52))
          | None => false
          end
      | _, _ => false
      end
  | _ => false
  end.

(** Decoding two tokens: both decode, into [0, 1], and the first to the
    smaller ratio. *)
Definition decodes_in_order (t t' : Z) : bool :=
  match _tokens_to_ratios [t; t'] with
  | Ok [r; r'] => (0 <=? r)%float && (r <? r')%float && (r' <=? 1)%float
  | _ => false
  end.

(** The token that comes back when a token from 0 to 100 is decoded and
    encoded again. *)
Definition reencoded (t : Z) : Z :=
  if (t =? 29) || (t =? 58) || (t =? 59) then t - 1 else t.

Definition reencodes (t : Z) : bool :=
  match _tokens_to_ratios [t] with
  | Ok [r] =>
      match _ratios_to_tokens [r] with
      | Ok [t'] => t' =? reencoded t
      | _ => false
      end
  | _ => false
  end.

(** ** A sample network

    Collaborators to run the strategy on: a matcher for simple patterns, a
    graph of convolution filters, a pruner that removes leading slices, and
    a controller that proposes from a list. *)
Module Sample.

(** *** Matcher: literal characters, [.] and starred atoms *)

Inductive atom := Lit (c : ascii) | AnyChar.

Fixpoint atoms (p : list ascii) : list (atom * bool) :=
  match p with
  | [] => []
  | c :: p' =>
      let a := if Ascii.eqb c "." then AnyChar else Lit c in
      match p' with
      | "*"%char :: p'' => (a, true) :: atoms p''
      | _ => (a, false) :: atoms p'
      end
  end.

Definition atom_matches (a : atom) (c : ascii) : bool :=
  match a with
  | Lit c' => Ascii.eqb c' c
  | AnyChar => negb (Ascii.eqb c "010")
  end.

(** Does a prefix of [s] match the atoms? *)
Fixpoint prefix_matches (p : list (atom * bool)) : list ascii -> bool :=
  match p with
  | [] => fun _ => true
  | (a, false) :: p' => fun s =>
      match s with
      | c :: s' => atom_matches a c && prefix_matches p' s'
      | [] => false
      end
  | (a, true) :: p' =>
      fix star (s : list ascii) : bool :=
        prefix_matches p' s
        || match s with
           | c :: s' => atom_matches a c && star s'
           | [] => false
           end
  end.

#[global] Instance simple_matcher : Matcher :=
  {| re_match pattern name :=
       prefix_matches (atoms (list_ascii_of_string pattern))
         (list_ascii_of_string name) |}.

(** *** Graph: every parameter is a convolution filter *)

Definition numel (s : shape) : Z := foldr Z.mul 1 s.

Definition is_depthwise (name : string) : bool := String.prefix "depthwise" name.

Definition filter_flops (g : Graph) (name : string) : Z :=
  match var_shape g !! name with
  | Some s => 64 * numel s / default 1 (conv_groups g !! name)
  | None => 0
  end.

#[global] Instance filter_graph : GraphWrapper :=
  {| flops g := foldr Z.add 0 (filter_flops g <$> all_parameters g);
     numel_params g :=
       foldr Z.add 0 ((fun name => numel (default [] (var_shape g !! name)))
                        <$> all_parameters g);
     groups_of shapes :=
       omap (fun s => Some (hd 1 s))
         (filter (fun kv => is_depthwise kv.1 = true) shapes) |}.

(** *** Pruner: remove leading slices *)

(** How many of [n] leading slices a ratio removes: [floor(ratio * n)],
    computed exactly and kept within [0, n]. *)
Definition removed (n : Z) (ratio : float) : Z :=
  match PyFloat.to_Q ratio with
  | Some q => Z.max 0 (Z.min n (Qfloor (q * inject_Z n)))
  | None => 0
  end.

(** One parameter: record what is there on first touch, then shrink the
    leading axis (and, unless graph-only, the tensor). *)
Definition prune_one (count : Z -> float -> Z) (only_graph : bool)
    (acc : Pruned) (nr : string * float) : Pruned :=
  match pruned_shapes acc !! nr.1 with
  | Some (n :: rest) =>
      let k := n - count n nr.2 in
      let shapes := <[nr.1 := k :: rest]> (pruned_shapes acc) in
      let sb := match shape_backup acc !! nr.1 with
                | Some _ => shape_backup acc
                | None => <[nr.1 := n :: rest]> (shape_backup acc)
                end in
      if only_graph then mkPruned shapes (pruned_scope acc) (tensor_backup acc) sb
      else
        match pruned_scope acc !! nr.1 with
        | Some t =>
            let tb := match tensor_backup acc !! nr.1 with
                      | Some _ => tensor_backup acc
                      | None => <[nr.1 := t]> (tensor_backup acc)
                      end in
            mkPruned shapes (<[nr.1 := take (Z.to_nat k) t]> (pruned_scope acc)) tb sb
        | None => mkPruned shapes (pruned_scope acc) (tensor_backup acc) sb
        end
  | _ => acc
  end.

Definition slice_pruner (count : Z -> float -> Z) : Pruner :=
  {| prune only_graph g sc params ratios :=
       foldl (prune_one count only_graph) (mkPruned (var_shape g) sc ∅ ∅)
         (zip params ratios) |}.

#[global] Instance floor_pruner : Pruner := slice_pruner removed.

(** *** Controller: proposals from a list *)

Record proposer := mkProposer {
  proposals : list (list Z);
  best : list Z;
  rewards : list float
}.

#[global] Instance list_controller : Controller :=
  {| ctl := proposer;
     reset c range_table tokens := mkProposer (proposals c) (best c) [];
     next_tokens c := (hd [] (proposals c), mkProposer (tl (proposals c)) (best c) (rewards c));
     update c tokens reward := mkProposer (proposals c) (best c) (rewards c ++ [reward]);
     _best_tokens c := best c |}.

(** *** Networks, tensors and states *)

(** One convolution, which carries all the FLOPs. *)
Definition conv_net : Graph :=
  mkGraph ["conv1_weights"] {[ "conv1_weights" := [4; 3; 3; 3] ]} ∅.

(** A convolution and a fully connected layer, half of the FLOPs each. *)
Definition mixed_net : Graph :=
  mkGraph ["conv1_weights"; "fc_weights"]
    (<["conv1_weights" := [4; 3; 3; 3]]> {[ "fc_weights" := [12; 9] ]}) ∅.

(** A depthwise convolution: its groups follow its leading axis. *)
Definition depthwise_net : Graph :=
  mkGraph ["depthwise1_weights"] {[ "depthwise1_weights" := [8; 8; 3; 3] ]}
    {[ "depthwise1_weights" := 8 ]}.

(** A fully connected layer only: the default pattern selects nothing. *)
Definition fc_net : Graph :=
  mkGraph ["fc_weights"] {[ "fc_weights" := [12; 9] ]} ∅.

(** A convolution without input channels: no FLOPs and no weights. *)
Definition hollow_net : Graph :=
  mkGraph ["conv1_weights"] {[ "conv1_weights" := [4; 0; 3; 3] ]} ∅.

Definition tensors : gmap string Tensor :=
  <["conv1_weights" := [1; 2; 3; 4]%float]>
    (<["depthwise1_weights" := [1; 2; 3; 4; 5; 6; 7; 8]%float]>
       {[ "fc_weights" := [5; 6]%float ]}).

Definition sample_context (g : Graph) (epoch : Z) : Context :=
  mkContext g g tensors epoch {[ "top1_acc" := [0.5; 0.75]%float ]} false 0.

(** A strategy with the default ratios and pattern, searching over epochs
    0 to 2, and a controller that will propose the tokens 50, 25 and 30
    and holds 75 as its best; [inherited] is what the base class provides
    as [param_backup]. *)
Definition fresh_inheriting (inherited : option (gmap string Tensor))
    (g : Graph) (epoch : Z) : State :=
  mkState (__init__ 0 2 0.5 0.7 "top1_acc" "conv.*_weights" 3 inherited)
    (sample_context g epoch) (mkProposer [[50]; [25]; [30]] [75] []) [].

Definition fresh : Graph -> Z -> State := fresh_inheriting None.

(** The same with the band 0.4 to 0.6 and a pattern for depthwise filters. *)
Definition fresh_depthwise : State :=
  mkState (__init__ 0 2 0.4 0.6 "top1_acc" "depthwise.*_weights" 0 None)
    (sample_context depthwise_net 0) (mkProposer [[50]; [25]] [75] []) [].

(** The band as the docstring of [__init__] words it, the two bounds
    exchanged: [min_ratio = 0.7] and [max_ratio = 0.5]. *)
Definition swapped_band : State :=
  mkState (__init__ 0 2 0.7 0.5 "top1_acc" "conv.*_weights" 0 None)
    (sample_context conv_net 0) (mkProposer [[50]] [75] []) [].

(** A state whose strategy has resolved its selector to [names]. *)
Definition selected (names : list string) (s : State) : State :=
  mkState (set_pruned_param_names names (self s)) (context s) (controller s) (calls s).

(** The context moved to another epoch. *)
Definition at_epoch (e : Z) (s : State) : State :=
  mkState (self s)
    (mkContext (eval_graph (context s)) (optimize_graph (context s))
       (scope (context s)) e (eval_results (context s))
       (skip_training (context s)) (compiled (context s)))
    (controller s) (calls s).

(** The context with other evaluation results. *)
Definition with_results (r : gmap string (list float)) (s : State) : State :=
  mkState (self s)
    (mkContext (eval_graph (context s)) (optimize_graph (context s))
       (scope (context s)) (epoch_id (context s)) r
       (skip_training (context s)) (compiled (context s)))
    (controller s) (calls s).

(** *** States of sample runs, computed once *)

(** The mixed network after [on_compression_begin], and after a second
    call of it. *)
Definition mixed_ready : State :=
  Eval vm_compute in (on_compression_begin 54 (fresh mixed_net 0)).2.

Definition mixed_ready_twice : State :=
  Eval vm_compute in (on_compression_begin 54 mixed_ready).2.

(** A trial on it at epoch 0: after [on_epoch_begin], and after
    [on_epoch_end]. *)
Definition mixed_trial : State :=
  Eval vm_compute in (on_epoch_begin mixed_ready).2.

Definition mixed_restored : State :=
  Eval vm_compute in (on_epoch_end mixed_trial).2.

(** The mixed network at the final epoch 2, once [on_compression_begin]
    and then [on_epoch_begin] have run: a trial is open.  [inherited] is
    what the base class provides as [param_backup]. *)
Definition final_epoch_open (inherited : option (gmap string Tensor)) : State :=
  (on_epoch_begin
     (at_epoch 2 (on_compression_begin 54 (fresh_inheriting inherited mixed_net 0)).2)).2.

Definition final_open : State :=
  Eval vm_compute in final_epoch_open None.

Definition final_open_inheriting : State :=
  Eval vm_compute in
    final_epoch_open (Some {[ "conv1_weights" := [1; 2; 3; 4]%float ]}).

Definition final_committed : State :=
  Eval vm_compute in (on_epoch_end final_open_inheriting).2.

(** The fully connected network after [on_compression_begin]. *)
Definition fc_ready : State :=
  Eval vm_compute in (on_compression_begin 54 (fresh fc_net 0)).2.

(** The depthwise network after [on_compression_begin], and after the
    constraint evaluator has been asked about the tokens 50. *)
Definition depthwise_ready : State :=
  Eval vm_compute in (on_compression_begin 1 fresh_depthwise).2.

Definition depthwise_checked : State :=
  Eval vm_compute in (_constrain_func [50] depthwise_ready).2.

(** The hollow network: the state its search stops in, and the state
    [on_compression_begin] stops in. *)
Definition hollow_probed : State :=
  Eval vm_compute in
    (_get_uniform_ratios 1 (selected ["conv1_weights"] (fresh hollow_net 0))).2.

Definition hollow_failed : State :=
  Eval vm_compute in (on_compression_begin 1 (fresh hollow_net 0)).2.

End Sample.

(** * Properties *)

(** ** Records and the two graphs of a context *)

Lemma graph_of_set_graph w g c : graph_of w (set_graph w g c) = g.
Proof. by destruct w. Qed.

Lemma set_graph_set_graph w g g' c :
  set_graph w g (set_graph w g' c) = set_graph w g c.
Proof. by destruct w. Qed.

Lemma set_graph_graph_of w c : set_graph w (graph_of w c) c = c.
Proof. by destruct w, c. Qed.

Lemma graph_of_other w w' g c :
  w <> w' -> graph_of w (set_graph w' g c) = graph_of w c.
Proof. by destruct w, w'. Qed.

Lemma scope_set_graph w g c : scope (set_graph w g c) = scope c.
Proof. by destruct w. Qed.

Lemma Graph_eta g : mkGraph (all_parameters g) (var_shape g) (conv_groups g) = g.
Proof. by destruct g. Qed.

(** ** Writing a ledger back *)

(** Writing the entries of a list with distinct keys over a map is the
    union with the map the list denotes. *)
Lemma foldl_insert_union {V} (l : list (string * V)) (m : gmap string V) :
  NoDup l.*1 ->
  foldl (fun acc kv => <[kv.1 := kv.2]> acc) m l = list_to_map l ∪ m.
Proof.
  revert m. induction l as [|[k v] l IH]; intros m Hnd.
  - simpl. by rewrite (left_id_L ∅ (∪)).
  - rewrite fmap_cons in Hnd. apply NoDup_cons in Hnd as [Hk Hnd].
    cbn [foldl]. rewrite IH by done. rewrite list_to_map_cons.
    cbn [fst snd] in *. rewrite <- insert_union_l. symmetry. apply insert_union_r.
    by apply not_elem_of_list_to_map_1.
Qed.

Lemma foldl_insert_map_to_list {V} (b m : gmap string V) :
  foldl (fun acc kv => <[kv.1 := kv.2]> acc) m (map_to_list b) = b ∪ m.
Proof.
  rewrite foldl_insert_union by apply NoDup_fst_map_to_list.
  by rewrite list_to_map_to_list.
Qed.

Section Restoring.
Context `{GraphWrapper, Pruner, Controller, Matcher}.

(** A [for] loop whose body only rewrites the context is a fold. *)
Lemma for_each_on_context {A} (l : list A) (f : A -> Context -> Context) (s : State) :
  for_each l (fun x => on_context (f x)) s
  = (Ok tt, mkState (self s) (foldl (fun c x => f x c) (context s) l)
              (controller s) (calls s)).
Proof.
  revert s. induction l as [|x l IH]; intros s; simpl.
  - by destruct s.
  - unfold bind, on_context at 1, modify. simpl. by rewrite IH.
Qed.

Lemma foldl_set_shape w (l : list (string * shape)) (c : Context) :
  foldl (fun c kv => set_graph w (set_shape (graph_of w c) kv.1 kv.2) c) c l
  = set_graph w
      (mkGraph (all_parameters (graph_of w c))
         (foldl (fun acc kv => <[kv.1 := kv.2]> acc) (var_shape (graph_of w c)) l)
         (conv_groups (graph_of w c))) c.
Proof.
  revert c. induction l as [|kv l IH]; intros c; simpl.
  - by rewrite Graph_eta, set_graph_graph_of.
  - rewrite IH. rewrite graph_of_set_graph. simpl.
    by rewrite set_graph_set_graph.
Qed.

(** [restore_shapes] writes the ledger over the shapes of the graph. *)
Lemma restore_shapes_spec w (backup : gmap string shape) (s : State) :
  restore_shapes w backup s
  = (Ok tt,
     mkState (self s)
       (set_graph w
          (mkGraph (all_parameters (graph_of w (context s)))
             (backup ∪ var_shape (graph_of w (context s)))
             (conv_groups (graph_of w (context s))))
          (context s))
       (controller s) (calls s)).
Proof.
  unfold restore_shapes. rewrite for_each_on_context.
  by rewrite foldl_set_shape, foldl_insert_map_to_list.
Qed.
End Restoring.

(** Unfolding the plumbing of a computation. *)
Ltac unfold_M :=
  unfold on_graph, on_self, on_context, attr, set_tensor;
  unfold bind, ret, gets, lift, raise, modify.

(** A closed equation between two terms that compute to the same value,
    checked by the virtual machine when the proof is closed. *)
Ltac vm_refl :=
  match goal with |- ?a = _ => vm_cast_no_check (@eq_refl _ a) end.

(** Split a conjunction into its conjuncts, and nothing else. *)
Ltac conjuncts := repeat match goal with |- _ /\ _ => split end.

(** Running a computation on a state given by its components: every step
    is reduced as soon as it is unfolded, so that the state stays small. *)
Ltac run_M :=
  cbn [bind ret gets modify lift raise on_self on_context on_graph attr
       set_tensor controller_reset controller_next_tokens controller_update
       self context controller calls fst snd
       graph_of set_graph set_eval_graph set_optimize_graph set_scope
       set_skip_training compile
       eval_graph optimize_graph scope epoch_id eval_results skip_training compiled
       start_epoch end_epoch pruned_params _max_ratio _min_ratio _metric_name
       _pruned_param_names _retrain_epoch _current_tokens _range_table
       _param_backup _param_shape_backup param_backup
       set_pruned_param_names set_current_tokens set_range_table
       set_param_backup set_param_shape_backup].

Tactic Notation "run_M" "in" hyp(H) :=
  cbn [bind ret gets modify lift raise on_self on_context on_graph attr
       set_tensor controller_reset controller_next_tokens controller_update
       self context controller calls fst snd
       graph_of set_graph set_eval_graph set_optimize_graph set_scope
       set_skip_training compile
       eval_graph optimize_graph scope epoch_id eval_results skip_training compiled
       start_epoch end_epoch pruned_params _max_ratio _min_ratio _metric_name
       _pruned_param_names _retrain_epoch _current_tokens _range_table
       _param_backup _param_shape_backup param_backup
       set_pruned_param_names set_current_tokens set_range_table
       set_param_backup set_param_shape_backup] in H.

(** ** The constraint evaluator *)

Section ConstraintEvaluator.
Context `{GraphWrapper, Pruner, Controller, Matcher}.

Lemma constrain_func_state tokens ratios (s : State) :
  _tokens_to_ratios tokens = Ok ratios ->
  (_constrain_func tokens s).2 = after_constrain s ratios.
Proof.
  intros Hr. unfold _constrain_func, _prune_parameters, after_constrain, trial_of.
  unfold_M. rewrite Hr. cbn [graph_of set_graph fst snd].
  rewrite restore_shapes_spec.
  destruct s as [st [eg og sc ep er sk cmp] ct cl]. cbn.
  destruct (one_minus_quotient _ _) as [v| |]; [|done..].
  by destruct (_ && _).
Qed.

(** A token vector that does not convert stops the evaluator before it
    touches anything. *)
Lemma constrain_func_raise tokens e (s : State) :
  _tokens_to_ratios tokens = Raise e ->
  _constrain_func tokens s = (Raise e, s).
Proof.
  intros Hr. unfold _constrain_func. unfold_M. by rewrite Hr.
Qed.

(** With an exhaustive ledger, the evaluator leaves every shape of the
    evaluation graph as it found it, whatever it returns. *)
Lemma constrain_func_restores_shapes `{!PrunerRecords} tokens (s : State) :
  var_shape (eval_graph (context (_constrain_func tokens s).2))
  = var_shape (eval_graph (context s)).
Proof.
  destruct (_tokens_to_ratios tokens) as [ratios|e|] eqn:Hr.
  - rewrite (constrain_func_state _ _ _ Hr). unfold after_constrain, trial_of.
    cbn. apply shape_backup_exhaustive.
  - by rewrite (constrain_func_raise _ _ _ Hr).
  - unfold _constrain_func. unfold_M. by rewrite Hr.
Qed.

(** It leaves the grouping metadata as computed from the pruned shapes:
    the groups are updated after the trial (line 101) and not after the
    shapes are written back (lines 103-104). *)
Lemma constrain_func_leaves_groups tokens ratios (s : State) :
  _tokens_to_ratios tokens = Ok ratios ->
  conv_groups (eval_graph (context (_constrain_func tokens s).2))
  = groups_of (pruned_shapes (trial_of s ratios)).
Proof.
  intros Hr. by rewrite (constrain_func_state _ _ _ Hr).
Qed.
End ConstraintEvaluator.

(** ** What a computation leaves alone *)

Section Frames.
Context `{GraphWrapper, Pruner, Controller, Matcher}.

Section Closure.
Context (R : State -> State -> Prop) `{!Reflexive R, !Transitive R}.

Lemma respects_ret {A} (v : A) : respects R (ret v).
Proof. intros s. reflexivity. Qed.

Lemma respects_lift {A} (r : res A) : respects R (lift r).
Proof. intros s. reflexivity. Qed.

Lemma respects_raise {A} e : respects R (raise (A := A) e).
Proof. intros s. reflexivity. Qed.

Lemma respects_gets {A} (f : State -> A) : respects R (gets f).
Proof. intros s. reflexivity. Qed.

Lemma respects_attr {A} (f : Strategy -> option A) : respects R (attr f).
Proof. intros s. reflexivity. Qed.

Lemma respects_bind {A B} (m : M State A) (k : A -> M State B) :
  respects R m -> (forall v, respects R (k v)) -> respects R (bind m k).
Proof.
  intros Hm Hk s. unfold bind. specialize (Hm s).
  destruct (m s) as [[v| |] s1]; simpl in *; [|done..].
  etransitivity; [exact Hm|apply Hk].
Qed.

Lemma respects_for_each {A} (l : list A) (body : A -> M State unit) :
  (forall x, respects R (body x)) -> respects R (for_each l body).
Proof.
  intros Hb. induction l as [|x l IH]; simpl.
  - apply respects_ret.
  - apply respects_bind; auto.
Qed.
End Closure.

#[global] Instance same_strategy_refl : Reflexive same_strategy.
Proof. by intros s. Qed.
#[global] Instance same_strategy_trans : Transitive same_strategy.
Proof. intros s1 s2 s3 (?&?&?) (?&?&?). repeat split; congruence. Qed.
#[global] Instance same_parameters_refl : Reflexive same_parameters.
Proof. by intros s. Qed.
#[global] Instance same_parameters_trans : Transitive same_parameters.
Proof. unfold same_parameters. intros s1 s2 s3 ? ?. congruence. Qed.

Lemma context_only_on_context f : respects same_strategy (on_context f).
Proof. by intros []. Qed.

Lemma context_only_on_graph w f : respects same_strategy (on_graph w f).
Proof. by intros []. Qed.

Lemma same_parameters_on_self f : respects same_parameters (on_self f).
Proof. by intros []. Qed.

Lemma same_parameters_prune_parameters w params ratios only_graph :
  respects same_parameters (_prune_parameters w params ratios only_graph).
Proof. intros [st c ct cl]. by destruct w. Qed.

Lemma same_parameters_restore_shapes w backup :
  respects same_parameters (restore_shapes w backup).
Proof.
  intros s. rewrite restore_shapes_spec. unfold same_parameters. cbn.
  by destruct w.
Qed.
End Frames.

Create HintDb frames.
#[export] Hint Resolve respects_ret respects_lift respects_raise respects_gets
  respects_attr context_only_on_context context_only_on_graph
  same_parameters_on_self same_parameters_prune_parameters
  same_parameters_restore_shapes : frames.

(** Decompose a computation into its steps and frame each. *)
Ltac frame :=
  repeat first
    [ solve [auto with frames typeclass_instances]
    | apply respects_bind; [typeclasses eauto..| |intros]
    | apply respects_for_each; [typeclasses eauto..|intros]
    | match goal with
      | |- respects _ (match ?x with _ => _ end) => destruct x
      end ].

Section FramesOfTheStrategy.
Context `{GraphWrapper, Pruner, Controller, Matcher}.

Lemma context_only_prune_parameters w params ratios only_graph :
  respects same_strategy (_prune_parameters w params ratios only_graph).
Proof. unfold _prune_parameters. frame. Qed.

Lemma context_only_restore_shapes w backup :
  respects same_strategy (restore_shapes w backup).
Proof. unfold restore_shapes. frame. Qed.

Lemma context_only_set_tensor name value :
  respects same_strategy (set_tensor name value).
Proof. unfold set_tensor. frame. Qed.

Lemma context_only_resync : respects same_strategy resync.
Proof. unfold resync. frame. Qed.

Hint Resolve context_only_prune_parameters context_only_restore_shapes
  context_only_set_tensor context_only_resync : frames.

Lemma context_only_restore_tensors backup :
  respects same_strategy (restore_tensors backup).
Proof. unfold restore_tensors. frame. Qed.

Hint Resolve context_only_restore_tensors : frames.

Lemma context_only_constrain_func tokens :
  respects same_strategy (_constrain_func tokens).
Proof. unfold _constrain_func. frame. Qed.

(** The search writes to the context only, and leaves the parameter
    enumeration of the evaluation graph alone. *)
Lemma iteration_respects R target flops0 model_size l :
  R = same_strategy \/ R = same_parameters ->
  respects R (iteration target flops0 model_size l).
Proof. intros [-> | ->]; unfold iteration; frame. Qed.

Lemma uniform_search_respects R fuel target flops0 model_size l :
  R = same_strategy \/ R = same_parameters ->
  respects R (uniform_search fuel target flops0 model_size l).
Proof.
  intros HR. revert l. induction fuel as [|fuel IH]; intros l; simpl;
    destruct (_ <? _)%float.
  1,2,4: destruct HR as [-> | ->]; frame.
  pose proof (iteration_respects R target flops0 model_size l HR).
  destruct HR as [-> | ->]; frame.
Qed.

Lemma get_init_tokens_respects R fuel :
  R = same_strategy \/ R = same_parameters ->
  respects R (_get_init_tokens fuel).
Proof.
  intros HR. unfold _get_init_tokens, _get_uniform_ratios.
  pose proof (fun t f m l => uniform_search_respects R fuel t f m l HR).
  destruct HR as [-> | ->]; frame.
Qed.

Lemma context_only_get_prune_ratios tokens :
  respects same_strategy (_get_prune_ratios tokens).
Proof. unfold _get_prune_ratios. frame. Qed.

Hint Resolve context_only_get_prune_ratios : frames.

(** The final branch of [on_epoch_end] assigns no attribute of the
    strategy and calls no method of the controller. *)
Lemma context_only_final_commit : respects same_strategy final_commit.
Proof. unfold final_commit. frame. Qed.
End FramesOfTheStrategy.

(** ** The uniform-ratio search *)

Lemma one_minus_quotient_cases n d :
  (exists x, one_minus_quotient n d = Ok x)
  \/ one_minus_quotient n d = Raise ZeroDivisionError
  \/ one_minus_quotient n d = Raise OverflowError.
Proof.
  unfold one_minus_quotient, PyFloat.div_int, PyFloat.of_int, res_bind.
  destruct (binary_normalize prec emax n 0 false);
    destruct (binary_normalize prec emax d 0 false);
    destruct (d =? 0); eauto.
Qed.

Section UniformSearch.
Context `{GraphWrapper, Pruner, Controller, Matcher}.

(** One iteration never runs out of budget, and raises nothing but the
    arithmetic errors of its two quotients. *)
Lemma iteration_outcome target flops0 model_size l (s : State) :
  match (iteration target flops0 model_size l s).1 with
  | Ok r =>
      exists pf, reduction s flops0 (midpoint l) = Ok pf
        /\ r = narrow target l (midpoint l)
                 (repeat (midpoint l) (length (_pruned_param_names (self s)))) pf
  | Raise e => e = ZeroDivisionError \/ e = OverflowError
  | Running => False
  end.
Proof.
  unfold iteration, _prune_parameters, reduction, remaining_flops, narrow, midpoint.
  unfold_M. cbn [graph_of set_graph fst snd].
  destruct s as [st [eg og sc ep er sk cmp] ct cl]. cbn.
  match goal with |- context [one_minus_quotient ?n flops0] =>
    destruct (one_minus_quotient_cases n flops0) as [[pf ->]|[-> | ->]] end;
    cbn; [|auto..].
  match goal with |- context [one_minus_quotient ?n model_size] =>
    destruct (one_minus_quotient_cases n model_size) as [[ps ->]|[-> | ->]] end;
    cbn; [|auto..].
  rewrite restore_shapes_spec. cbn.
  destruct (abs (pf - target) <? 0.01)%float eqn:E1;
    [|destruct (target <? pf)%float eqn:E2]; cbn; exists pf;
    rewrite ?E1, ?E2; done.
Qed.

(** With an exhaustive ledger and a graph-only run that touches no
    tensor, an iteration that returns leaves the state as it found it. *)
Lemma iteration_state `{!PrunerRecords, !PrunerGraphOnly}
    target flops0 model_size l (s : State) r s' :
  iteration target flops0 model_size l s = (Ok r, s') -> s' = s.
Proof.
  unfold iteration, _prune_parameters. unfold_M. cbn [graph_of set_graph fst snd].
  destruct s as [st [eg og sc ep er sk cmp] ct cl]. cbn.
  destruct (one_minus_quotient _ flops0); cbn; [|done..].
  destruct (one_minus_quotient _ model_size); cbn; [|done..].
  rewrite restore_shapes_spec. cbn.
  rewrite shape_backup_exhaustive, graph_only_keeps_scope, Graph_eta.
  destruct (_ <? 0.01)%float; [|destruct (_ <? _)%float]; cbn;
    intros [= _ <-]; reflexivity.
Qed.
End UniformSearch.

Section UniformSearchLoop.
Context `{GraphWrapper, Pruner, Controller, Matcher}.

(** The loop raises nothing but what its iterations raise. *)
Lemma uniform_search_raises fuel target flops0 model_size l (s : State) e :
  (uniform_search fuel target flops0 model_size l s).1 = Raise e ->
  e = ZeroDivisionError \/ e = OverflowError.
Proof.
  revert l s. induction fuel as [|fuel IH]; intros l s; simpl;
    destruct (min_ratio l <? max_ratio l)%float; try discriminate.
  unfold bind. pose proof (iteration_outcome target flops0 model_size l s) as Hi.
  destruct (iteration target flops0 model_size l s) as [[[x|l']| |] s1];
    simpl in *; try discriminate.
  - apply IH.
  - by intros [= <-].
Qed.

(** Once the loop has been through an iteration, [ratios] is a list. *)
Lemma uniform_search_ratios fuel target flops0 model_size l (s : State) x s' :
  uniform_search fuel target flops0 model_size l s = (Ok x, s') ->
  (min_ratio l <? max_ratio l)%float = true \/ is_Some (ratios l) ->
  is_Some (ratios x).
Proof.
  revert l s. induction fuel as [|fuel IH]; intros l s; simpl;
    destruct (min_ratio l <? max_ratio l)%float eqn:Ht; try discriminate;
    try (intros [= <- <-] [?|?]; done).
  unfold bind. pose proof (iteration_outcome target flops0 model_size l s) as Hi.
  destruct (iteration target flops0 model_size l s) as [[[x'|l']| |] s1];
    simpl in *; try discriminate; destruct Hi as (pf & _ & Hr); intros Hx _.
  - injection Hx as <- <-. revert Hr. unfold narrow.
    destruct (abs (pf - target) <? 0.01)%float; [|destruct (target <? pf)%float];
      intros Hr; inversion Hr; subst; cbn; by eexists.
  - apply (IH _ _ Hx). right. revert Hr. unfold narrow.
    destruct (abs (pf - target) <? 0.01)%float; [|destruct (target <? pf)%float];
      intros Hr; inversion Hr; subst; cbn; by eexists.
Qed.

(** Leaving the loop with the interval still open is leaving it through
    [break]: the ratio returned was measured within 0.01 of the target.
    And the state is the one the search started from. *)
Lemma uniform_search_exit `{!PrunerRecords, !PrunerGraphOnly}
    fuel target flops0 model_size l (s : State) x s' :
  uniform_search fuel target flops0 model_size l s = (Ok x, s') ->
  s' = s
  /\ ((min_ratio x <? max_ratio x)%float = true ->
      exists ratio pf,
        ratios x = Some (repeat ratio (length (_pruned_param_names (self s))))
        /\ pruned_flops x = Some pf
        /\ reduction s flops0 ratio = Ok pf
        /\ (abs (pf - target) <? 0.01)%float = true).
Proof.
  revert l. induction fuel as [|fuel IH]; intros l; simpl;
    destruct (min_ratio l <? max_ratio l)%float eqn:Ht; try discriminate;
    try (intros [= <- <-]; split; [done|congruence]).
  unfold bind. pose proof (iteration_outcome target flops0 model_size l s) as Hi.
  destruct (iteration target flops0 model_size l s) as [[[x'|l']| |] s1] eqn:Hit;
    simpl in *; try discriminate; destruct Hi as (pf & Hpf & Hr);
    apply iteration_state in Hit as ->.
  - intros [= <- <-]. split; [done|]. intros _. revert Hr. unfold narrow.
    destruct (abs (pf - target) <? 0.01)%float eqn:Hn;
      [|destruct (target <? pf)%float; discriminate].
    intros Hr. inversion Hr. by exists (midpoint l), pf.
  - apply IH.
Qed.

(** A budget of [k + n] iterations is [k] iterations and then [n]. *)
Lemma uniform_search_steps k n target flops0 model_size l (s : State) :
  uniform_search (k + n) target flops0 model_size l s
  = bind (steps k target flops0 model_size l)
      (fun r => match r with
                | Break x => ret x
                | Next l' => uniform_search n target flops0 model_size l'
                end) s.
Proof.
  revert l s. induction k as [|k IH]; intros l s; [done|].
  cbn [Nat.add uniform_search steps].
  destruct (min_ratio l <? max_ratio l)%float; [|done].
  unfold bind at 1 2 3.
  destruct (iteration target flops0 model_size l s) as [[[x'|l']| |] s1]; done.
Qed.

(** While the first [k] iterations do not end the loop, a budget below
    [k] runs out. *)
Lemma steps_running k target flops0 model_size l (s : State) l' s' j :
  steps k target flops0 model_size l s = (Ok (Next l'), s') ->
  (j < k)%nat ->
  (uniform_search j target flops0 model_size l s).1 = Running.
Proof.
  revert l s j. induction k as [|k IH]; intros l s j Hk Hj; [lia|].
  cbn [steps] in Hk. destruct j as [|j]; cbn [uniform_search];
    destruct (min_ratio l <? max_ratio l)%float; try done.
  unfold bind in *.
  destruct (iteration target flops0 model_size l s) as [[[x'|l1]| |] s1]; try done.
  apply (IH _ _ _ Hk). lia.
Qed.

(** Locals that an iteration gives back unchanged, with the interval
    open, keep the loop running under every budget. *)
Lemma stuck_forever target flops0 model_size l (s : State) :
  (min_ratio l <? max_ratio l)%float = true ->
  iteration target flops0 model_size l s = (Ok (Next l), s) ->
  forall fuel, uniform_search fuel target flops0 model_size l s = (Running, s).
Proof.
  intros Ht Hi fuel. induction fuel as [|fuel IH]; cbn [uniform_search];
    rewrite Ht; [done|].
  unfold bind. by rewrite Hi.
Qed.

Lemma stuck_after k target flops0 model_size l0 l (s : State) :
  steps k target flops0 model_size l0 s = (Ok (Next l), s) ->
  (min_ratio l <? max_ratio l)%float = true ->
  iteration target flops0 model_size l s = (Ok (Next l), s) ->
  forall fuel, (uniform_search fuel target flops0 model_size l0 s).1 = Running.
Proof.
  intros Hk Ht Hi fuel. destruct (decide (fuel < k)%nat) as [Hlt|Hge].
  - by eapply steps_running.
  - replace fuel with (k + (fuel - k))%nat by lia.
    rewrite uniform_search_steps. unfold bind. rewrite Hk.
    by rewrite stuck_forever.
Qed.
End UniformSearchLoop.

(** ** The sample pruner keeps an exhaustive ledger *)

Lemma backup_step {V} (b m : gmap string V) k old new :
  m !! k = Some old ->
  match b !! k with Some _ => b | None => <[k := old]> b end ∪ <[k := new]> m
  = b ∪ m.
Proof.
  intros Hold. apply map_eq. intros i. rewrite !lookup_union.
  destruct (decide (i = k)) as [->|Hne].
  - rewrite lookup_insert_eq, Hold. destruct (b !! k) eqn:Hb.
    + by rewrite Hb.
    + by rewrite lookup_insert_eq.
  - rewrite lookup_insert_ne by done. destruct (b !! k) eqn:Hb; [done|].
    by rewrite lookup_insert_ne.
Qed.

Section SamplePruner.
Variable count : Z -> float -> Z.

Lemma prune_one_ledger shapes sc only_graph acc nr :
  ledger_ok shapes sc acc ->
  ledger_ok shapes sc (Sample.prune_one count only_graph acc nr).
Proof.
  intros [Hs Ht]. unfold Sample.prune_one.
  destruct (pruned_shapes acc !! nr.1) as [[|n rest]|] eqn:Hn; try done.
  destruct only_graph.
  - split; [|done]. cbn. by rewrite (backup_step _ _ _ _ _ Hn).
  - destruct (pruned_scope acc !! nr.1) as [t|] eqn:Hsc; split; cbn;
      rewrite ?(backup_step _ _ _ _ _ Hn), ?(backup_step _ _ _ _ _ Hsc); done.
Qed.

Lemma prune_one_graph_only sc acc nr :
  pruned_scope acc = sc ->
  pruned_scope (Sample.prune_one count true acc nr) = sc.
Proof.
  intros Hsc. unfold Sample.prune_one.
  by destruct (pruned_shapes acc !! nr.1) as [[|n rest]|].
Qed.

Lemma foldl_invariant {A B} (P : A -> Prop) (f : A -> B -> A) (l : list B) a :
  (forall a b, P a -> P (f a b)) -> P a -> P (foldl f a l).
Proof. intros Hf. revert a. induction l; simpl; auto. Qed.

Lemma slice_pruner_records : @PrunerRecords (Sample.slice_pruner count).
Proof.
  split; intros only_graph g sc params ratios; cbn;
    refine (_ (foldl_invariant (ledger_ok (var_shape g) sc)
                 (Sample.prune_one count only_graph) (zip params ratios) _ _ _)).
  - by intros [? ?].
  - intros. by apply prune_one_ledger.
  - split; cbn; apply (left_id_L ∅ (∪)).
  - by intros [? ?].
  - intros. by apply prune_one_ledger.
  - split; cbn; apply (left_id_L ∅ (∪)).
Qed.

Lemma slice_pruner_graph_only : @PrunerGraphOnly (Sample.slice_pruner count).
Proof.
  split; intros g sc params ratios; cbn.
  apply (foldl_invariant (fun acc => pruned_scope acc = sc)); [|done].
  intros. by apply prune_one_graph_only.
Qed.
End SamplePruner.

#[global] Instance floor_pruner_records : @PrunerRecords Sample.floor_pruner :=
  slice_pruner_records Sample.removed.
#[global] Instance floor_pruner_graph_only : @PrunerGraphOnly Sample.floor_pruner :=
  slice_pruner_graph_only Sample.removed.

(** ** How many slices the sample pruner removes *)

Lemma removed_range n ratio : 0 <= n -> 0 <= Sample.removed n ratio <= n.
Proof. unfold Sample.removed. destruct (PyFloat.to_Q ratio); lia. Qed.

(** More is removed at a larger ratio. *)
Lemma removed_mono n r1 r2 q1 q2 :
  0 <= n ->
  PyFloat.to_Q r1 = Some q1 -> PyFloat.to_Q r2 = Some q2 -> (q1 <= q2)%Q ->
  Sample.removed n r1 <= Sample.removed n r2.
Proof.
  intros Hn H1 H2 Hq. unfold Sample.removed. rewrite H1, H2.
  assert (Qfloor (q1 * inject_Z n) <= Qfloor (q2 * inject_Z n)); [|lia].
  apply Qfloor_resp_le, Qmult_le_compat_r; [done|].
  change 0%Q with (inject_Z 0). by rewrite <- Zle_Qle.
Qed.

(** ** What the search returns *)

Section GetUniformRatios.
Context `{GraphWrapper, Pruner, Controller, Matcher}.

Lemma get_uniform_ratios_unfold fuel (s : State) :
  _get_uniform_ratios fuel s
  = match search_of fuel s with
    | (Ok x, s') =>
        match ratios x with
        | Some rs => (Ok rs, s')
        | None => (Raise TypeError, s')
        end
    | (Raise e, s') => (Raise e, s')
    | (Running, s') => (Running, s')
    end.
Proof.
  unfold _get_uniform_ratios, search_of. unfold_M.
  destruct (uniform_search _ _ _ _ _ s) as [[x| |] s1]; try done.
  by destruct (ratios x).
Qed.

(** The search raises nothing but the arithmetic errors of its
    quotients: no budget runs out and no failure is reported. *)
Lemma get_uniform_ratios_raises fuel (s : State) e :
  (_get_uniform_ratios fuel s).1 = Raise e ->
  e = ZeroDivisionError \/ e = OverflowError.
Proof.
  rewrite get_uniform_ratios_unfold. unfold search_of.
  pose proof (uniform_search_raises fuel (target_of (self s))
    (flops (eval_graph (context s))) (numel_params (eval_graph (context s)))
    initial_locals s) as Hr.
  pose proof (uniform_search_ratios fuel (target_of (self s))
    (flops (eval_graph (context s))) (numel_params (eval_graph (context s)))
    initial_locals s) as Hs.
  destruct (uniform_search _ _ _ _ _ s) as [[x| |] s1]; cbn in *;
    [|intros [= <-]; by apply Hr|done].
  destruct (Hs x s1) as [rs Hrs]; [done|by left|]. by rewrite Hrs.
Qed.
End GetUniformRatios.



(** The FLOPs left on the two sample convolution networks, by the number
    of slices the pruner removes. *)
Lemma remaining_flops_conv_net count ratio :
  @remaining_flops _ (Sample.slice_pruner count) _
    (Sample.selected ["conv1_weights"] (Sample.fresh Sample.conv_net 0)) ratio
  = 64 * ((4 - count 4 ratio) * 27) / 1 + 0.
Proof. vm_compute. reflexivity. Qed.

Lemma remaining_flops_mixed_net count ratio :
  @remaining_flops _ (Sample.slice_pruner count) _
    (Sample.selected ["conv1_weights"] (Sample.fresh Sample.mixed_net 0)) ratio
  = 64 * ((4 - count 4 ratio) * 27) / 1 + 6912.
Proof. vm_compute. reflexivity. Qed.

Lemma remaining_flops_conv_net_floor ratio :
  remaining_flops
    (Sample.selected ["conv1_weights"] (Sample.fresh Sample.conv_net 0)) ratio
  = 64 * ((4 - Sample.removed 4 ratio) * 27) / 1 + 0.
Proof. exact (remaining_flops_conv_net Sample.removed ratio). Qed.

Lemma remaining_flops_mixed_net_floor ratio :
  remaining_flops
    (Sample.selected ["conv1_weights"] (Sample.fresh Sample.mixed_net 0)) ratio
  = 64 * ((4 - Sample.removed 4 ratio) * 27) / 1 + 6912.
Proof. exact (remaining_flops_mixed_net Sample.removed ratio). Qed.

(** Cases on a number of removed slices out of four. *)
Ltac removed_cases ratio :=
  let Hc := fresh "Hc" in
  pose proof (removed_range 4 ratio ltac:(lia)) as Hc;
  let c := fresh "c" in
  set (c := Sample.removed 4 ratio) in *;
  assert (c = 0 \/ c = 1 \/ c = 2 \/ c = 3 \/ c = 4) as [->|[->|[->|[->| ->]]]]
    by lia; clear Hc.

(** On the mixed sample network no uniform ratio reduces the FLOPs to
    within 0.01 of the target 0.6. *)
Lemma mixed_net_unreachable ratio pf :
  let s := Sample.selected ["conv1_weights"] (Sample.fresh Sample.mixed_net 0) in
  reduction s (flops (eval_graph (context s))) ratio = Ok pf ->
  (abs (pf - target_of (self s)) <? 0.01)%float = false.
Proof.
  intros s. unfold reduction. subst s.
  rewrite remaining_flops_mixed_net_floor.
  removed_cases ratio; vm_compute; by intros [= <-].
Qed.


(** C6 (amended).  When no uniform ratio brings the FLOPs reduction within
    0.01 of the target, the search has no iteration budget and reports no
    failure: under every budget given to the model it is still iterating,
    or it has returned the ratios of its last midpoint as an ordinary
    result because [min_ratio < max_ratio] no longer holds; the only
    exceptions are the arithmetic errors of the FLOPs quotients. *)
Theorem uniform_search_has_no_failure_path
    `{GraphWrapper, Pruner, Controller, !PrunerRecords, !PrunerGraphOnly}
    fuel (s : State) :
  (forall ratio pf,
     reduction s (flops (eval_graph (context s))) ratio = Ok pf ->
     (abs (pf - target_of (self s)) <? 0.01)%float = false) ->
  match _get_uniform_ratios fuel s with
  | (Ok rs, s') =>
      exists x, search_of fuel s = (Ok x, s') /\ ratios x = Some rs
                /\ (min_ratio x <? max_ratio x)%float = false
  | (Raise e, _) => e = ZeroDivisionError \/ e = OverflowError
  | (Running, _) => True
  end.
Proof.
  intros Hnone.
  pose proof (get_uniform_ratios_raises fuel s) as Hraise.
  rewrite get_uniform_ratios_unfold in *.
  destruct (search_of fuel s) as [[x| |] s1] eqn:Hs; [|by apply Hraise|done].
  destruct (ratios x) as [rs|] eqn:Hrs; [|by apply Hraise].
  exists x. repeat split; try done.
  destruct (uniform_search_exit _ _ _ _ _ _ _ _ Hs) as [_ Hopen].
  destruct (min_ratio x <? max_ratio x)%float; [|done].
  destruct Hopen as (ratio & pf & _ & _ & Hred & Hpf); [done|].
  pose proof (Hnone _ _ Hred) as Hfar. congruence.
Qed.

(** On the mixed sample network no ratio is within tolerance, and the
    search returns, without a failure, once its interval has closed. *)
Lemma uniform_search_has_no_failure_path_witness :
  let s := Sample.selected ["conv1_weights"] (Sample.fresh Sample.mixed_net 0) in
  (forall ratio pf,
     reduction s (flops (eval_graph (context s))) ratio = Ok pf ->
     (abs (pf - target_of (self s)) <? 0.01)%float = false)
  /\ match _get_uniform_ratios 54 s with
     | (Ok rs, s') =>
         exists x, search_of 54 s = (Ok x, s') /\ ratios x = Some rs
                   /\ (min_ratio x <? max_ratio x)%float = false
     | (Raise e, _) => e = ZeroDivisionError \/ e = OverflowError
     | (Running, _) => True
     end.
Proof.
  split; [exact mixed_net_unreachable|].
  apply (uniform_search_has_no_failure_path 54). exact mixed_net_unreachable.
Defined.

(** On the sample convolution network no uniform ratio reduces the FLOPs to
    within 0.01 of the target 0.6: the reductions are the quarters. *)
Lemma conv_net_unreachable ratio pf :
  let s := Sample.selected ["conv1_weights"] (Sample.fresh Sample.conv_net 0) in
  reduction s (flops (eval_graph (context s))) ratio = Ok pf ->
  (abs (pf - target_of (self s)) <? 0.01)%float = false.
Proof.
  intros s. unfold reduction. subst s.
  rewrite remaining_flops_conv_net_floor.
  removed_cases ratio; vm_compute; by intros [= <-].
Qed.

(** C6 (counterexample).  On the sample convolution network no uniform
    ratio is within tolerance, and the search neither fails nor returns:
    it is still iterating under every budget.  After 54 iterations the
    interval is two neighbouring binary64 numbers, whose midpoint is one of
    them, and an iteration changes nothing. *)
Lemma uniform_search_runs_forever :
  let s := Sample.selected ["conv1_weights"] (Sample.fresh Sample.conv_net 0) in
  (forall ratio pf,
     reduction s (flops (eval_graph (context s))) ratio = Ok pf ->
     (abs (pf - target_of (self s)) <? 0.01)%float = false)
  /\ (forall fuel, (_get_uniform_ratios fuel s).1 = Running).
Proof.
  intros s. split; [exact conv_net_unreachable|].
  intros fuel. rewrite get_uniform_ratios_unfold.
  assert ((search_of fuel s).1 = Running) as Hrun.
  { apply (stuck_after 54 _ _ _ _
             (mkLocals 0.74999999999999989 0.75 (Some [0.75%float]) (Some 0.75%float)));
      vm_refl. }
  by destruct (search_of fuel s) as [[x| |] s1].
Qed.

(** ** The codec round trip *)

(** Over exact rationals the round trip is a floor at the quantum 0.01. *)
Lemma exact_round_trip_floor (r : Q) :
  (token_to_ratio (ratio_to_token r) <= r)%Q
  /\ (r - token_to_ratio (ratio_to_token r) < 1 # 100)%Q.
Proof.
  unfold token_to_ratio, ratio_to_token.
  pose proof (Qfloor_le (r / (1 # 100))) as Hle.
  pose proof (Qlt_floor (r / (1 # 100))) as Hlt.
  rewrite inject_Z_plus in Hlt. change (inject_Z 1) with 1%Q in Hlt.
  set (x := (r / (1 # 100))%Q) in *.
  assert (r == x * (1 # 100))%Q as Hr by (unfold x; field).
  set (f := inject_Z (Qfloor x)) in *. clearbody f.
  split; lra.
Qed.

(** The binary64 round trip on the two-decimal ratios, checked one by
    one. *)
Lemma round_trip_near_all : forallb round_trip_near (seqZ 0 100) = true.
Proof. vm_compute. reflexivity. Qed.




(** ** Resolving the selector *)

Lemma res_map_length {A B} (f : A -> res B) (l : list A) (l' : list B) :
  res_map f l = Ok l' -> length l' = length l.
Proof.
  revert l'. induction l as [|x l IH]; intros l'; simpl.
  - by intros [= <-].
  - unfold res_bind. destruct (f x); try discriminate.
    destruct (res_map f l) as [ys| |]; try discriminate.
    intros [= <-]. simpl. by rewrite (IH ys).
Qed.

Section CompressionBegin.
Context `{GraphWrapper, Pruner, Controller, Matcher}.

Lemma resolve_names params (s : State) :
  for_each params (fun name =>
    pattern <- gets (fun s => pruned_params (self s));
    if re_match pattern name then
      on_self (fun st => set_pruned_param_names (_pruned_param_names st ++ [name]) st)
    else ret tt) s
  = (Ok tt,
     mkState
       (set_pruned_param_names
          (_pruned_param_names (self s)
             ++ List.filter (re_match (pruned_params (self s))) params) (self s))
       (context s) (controller s) (calls s)).
Proof.
  revert s. induction params as [|name params IH]; intros s.
  - cbn. rewrite app_nil_r. by destruct s as [[] ? ? ?].
  - cbn [for_each List.filter]. unfold bind at 1 2, gets at 1.
    destruct (re_match (pruned_params (self s)) name); unfold_M; cbn.
    + rewrite IH. cbn. by rewrite <- app_assoc.
    + rewrite IH. done.
Qed.

(** [on_compression_begin], step by step. *)
Lemma on_compression_begin_unfold fuel (s : State) :
  on_compression_begin fuel s
  = match _get_init_tokens fuel (resolved s) with
    | (Ok tokens, s2) =>
        (Ok tt,
         mkState
           (set_range_table (Some tokens)
              (set_current_tokens (Some tokens) (self s2)))
           (context s2) (reset (controller s2) tokens tokens)
           (calls s2 ++ [CallReset tokens tokens]))
    | (Raise e, s2) => (Raise e, s2)
    | (Running, s2) => (Running, s2)
    end.
Proof.
  unfold on_compression_begin. unfold bind at 1 2, gets at 1.
  rewrite resolve_names. fold (matched s). fold (resolved s).
  unfold bind at 1.
  by destruct (_get_init_tokens fuel (resolved s)) as [[tokens| |] s2].
Qed.

(** Every list of ratios the loop builds has one ratio per selected
    parameter. *)
Lemma uniform_search_length fuel target flops0 model_size l (s : State) x s' :
  uniform_search fuel target flops0 model_size l s = (Ok x, s') ->
  (forall rs, ratios l = Some rs ->
              length rs = length (_pruned_param_names (self s))) ->
  forall rs, ratios x = Some rs ->
             length rs = length (_pruned_param_names (self s)).
Proof.
  revert l s. induction fuel as [|fuel IH]; intros l s; simpl;
    destruct (min_ratio l <? max_ratio l)%float; try discriminate;
    try (intros [= <- <-]; done).
  unfold bind. pose proof (iteration_outcome target flops0 model_size l s) as Hi.
  pose proof (iteration_respects same_strategy target flops0 model_size l
                (or_introl eq_refl) s) as (Hself & _ & _).
  destruct (iteration target flops0 model_size l s) as [[[x'|l']| |] s1];
    simpl in *; try discriminate; destruct Hi as (pf & _ & Hr);
    revert Hr; unfold narrow;
    destruct (abs (pf - target) <? 0.01)%float;
    [|destruct (target <? pf)%float| |destruct (target <? pf)%float];
    intros Hr; inversion Hr; subst; clear Hr.
  - intros [= <- <-] _ rs [= <-]. by rewrite repeat_length.
  - intros Hx _. rewrite <- Hself. apply (IH _ _ Hx).
    intros rs [= <-]. by rewrite repeat_length, Hself.
  - intros Hx _. rewrite <- Hself. apply (IH _ _ Hx).
    intros rs [= <-]. by rewrite repeat_length, Hself.
Qed.

(** The initial tokens: one per selected parameter; the strategy and the
    parameter enumeration are untouched. *)
Lemma get_init_tokens_ok fuel (s : State) tokens s' :
  _get_init_tokens fuel s = (Ok tokens, s') ->
  length tokens = length (_pruned_param_names (self s))
  /\ same_strategy s s' /\ same_parameters s s'.
Proof.
  intros Hok.
  pose proof (get_init_tokens_respects same_strategy fuel (or_introl eq_refl) s) as Hs.
  pose proof (get_init_tokens_respects same_parameters fuel (or_intror eq_refl) s) as Hp.
  rewrite Hok in Hs, Hp. split; [|done].
  revert Hok. unfold _get_init_tokens. unfold bind at 1.
  rewrite get_uniform_ratios_unfold. unfold search_of.
  destruct (uniform_search _ _ _ _ _ s) as [[x| |] s1] eqn:Hx; try discriminate.
  destruct (ratios x) as [rs|] eqn:Hrs; try discriminate.
  unfold lift. destruct (_ratios_to_tokens rs) as [ts| |] eqn:Hts; try discriminate.
  intros [= <- <-]. rewrite (res_map_length _ _ _ Hts).
  by apply (uniform_search_length _ _ _ _ _ _ _ _ Hx).
Qed.

(** What [_get_init_tokens] can raise with nothing selected. *)
Lemma get_init_tokens_empty fuel (s : State) :
  _pruned_param_names (self s) = [] ->
  match (_get_init_tokens fuel s).1 with
  | Ok tokens => tokens = []
  | Raise e => e = ZeroDivisionError \/ e = OverflowError
  | Running => True
  end.
Proof.
  intros Hnames. pose proof (get_init_tokens_ok fuel s) as Hok.
  pose proof (get_uniform_ratios_raises fuel s) as Hraise.
  unfold _get_init_tokens in *. unfold bind in *.
  rewrite get_uniform_ratios_unfold in *. unfold search_of in *.
  pose proof (uniform_search_length fuel (target_of (self s))
    (flops (eval_graph (context s))) (numel_params (eval_graph (context s)))
    initial_locals s) as Hlen.
  destruct (uniform_search _ _ _ _ _ s) as [[x| |] s1] eqn:Hx; cbn in *;
    [|by apply Hraise|done].
  destruct (ratios x) as [rs|] eqn:Hrs; cbn in *; [|by apply Hraise].
  assert (rs = []) as ->.
  { apply nil_length_inv. rewrite (Hlen x s1); [by rewrite Hnames|done|done|done]. }
  done.
Qed.
End CompressionBegin.

(** C8 (amended).  [on_compression_begin] does not check its selector.  On
    a strategy that has selected nothing yet, when no parameter name of the
    evaluation graph matches the pattern, it raises no error of its own
    (only the arithmetic errors of the FLOPs quotients can come out of the
    initial search): when it returns, the selected list is empty and the
    controller has been reset with an empty range table and an empty token
    vector. *)
Theorem empty_selection_is_not_reported
    `{GraphWrapper, Pruner, Controller, Matcher} fuel (s : State) :
  _pruned_param_names (self s) = [] ->
  Forall (fun name => re_match (pruned_params (self s)) name = false)
    (all_parameters (eval_graph (context s))) ->
  match on_compression_begin fuel s with
  | (Ok _, s') =>
      _pruned_param_names (self s') = []
      /\ _current_tokens (self s') = Some []
      /\ _range_table (self s') = Some []
      /\ calls s' = calls s ++ [CallReset [] []]
  | (Raise e, _) => e = ZeroDivisionError \/ e = OverflowError
  | (Running, _) => True
  end.
Proof.
  intros Hnames Hnone. rewrite on_compression_begin_unfold.
  assert (matched s = []) as Hm.
  { unfold matched. induction Hnone as [|name l Hname _ IH]; [done|].
    cbn. by rewrite Hname. }
  assert (_pruned_param_names (self (resolved s)) = []) as Hres
    by (cbn; by rewrite Hnames, Hm).
  pose proof (get_init_tokens_empty fuel (resolved s) Hres) as Hempty.
  pose proof (get_init_tokens_ok fuel (resolved s)) as Hok.
  destruct (_get_init_tokens fuel (resolved s)) as [[tokens| |] s2];
    cbn in *; [|done..].
  subst tokens. destruct (Hok [] s2 eq_refl) as (_ & (Hself & _ & Hcalls) & _).
  rewrite Hself, Hcalls. cbn. by rewrite Hnames, Hm.
Qed.

(** The sample network with a fully connected layer only. *)
Lemma empty_selection_is_not_reported_witness :
  let s := Sample.fresh Sample.fc_net 0 in
  _pruned_param_names (self s) = []
  /\ Forall (fun name => re_match (pruned_params (self s)) name = false)
       (all_parameters (eval_graph (context s)))
  /\ match on_compression_begin 54 s with
     | (Ok _, s') =>
         _pruned_param_names (self s') = []
         /\ _current_tokens (self s') = Some []
         /\ _range_table (self s') = Some []
         /\ calls s' = calls s ++ [CallReset [] []]
     | (Raise e, _) => e = ZeroDivisionError \/ e = OverflowError
     | (Running, _) => True
     end.
Proof.
  split; [reflexivity|]. split; [by repeat constructor|].
  apply (empty_selection_is_not_reported 54); [reflexivity|by repeat constructor].
Defined.

(** C8 (counterexample).  The default pattern matches no parameter of the
    fully connected sample network, and [on_compression_begin] returns
    normally: nothing is selected, and the controller is reset with empty
    vectors. *)
Lemma empty_selection_returns_normally :
  let s := Sample.fresh Sample.fc_net 0 in
  all_parameters (eval_graph (context s)) = ["fc_weights"]
  /\ re_match (pruned_params (self s)) "fc_weights" = false
  /\ on_compression_begin 54 s = (Ok tt, Sample.fc_ready)
  /\ _pruned_param_names (self Sample.fc_ready) = []
  /\ _current_tokens (self Sample.fc_ready) = Some []
  /\ calls Sample.fc_ready = [CallReset [] []].
Proof. intros s. conjuncts; vm_refl. Qed.

(** C9.  [on_compression_begin] appends to the selected list without
    clearing it.  Called twice on a new strategy, it selects every matched
    parameter twice, in two runs of the matched list; and the token vector
    it hands to the controller has two tokens per matched parameter. *)
Theorem second_compression_begin_duplicates
    `{GraphWrapper, Pruner, Controller, Matcher} fuel1 fuel2 (s s1 s2 : State) :
  _pruned_param_names (self s) = [] ->
  on_compression_begin fuel1 s = (Ok tt, s1) ->
  on_compression_begin fuel2 s1 = (Ok tt, s2) ->
  _pruned_param_names (self s1) = matched s
  /\ _pruned_param_names (self s2) = matched s ++ matched s
  /\ exists tokens,
       _current_tokens (self s2) = Some tokens
       /\ last (calls s2) = Some (CallReset tokens tokens)
       /\ length tokens = (length (matched s) + length (matched s))%nat.
Proof.
  intros Hnames. rewrite !on_compression_begin_unfold.
  pose proof (get_init_tokens_ok fuel1 (resolved s)) as Hok1.
  destruct (_get_init_tokens fuel1 (resolved s)) as [[t1| |] s1'];
    try discriminate.
  destruct (Hok1 t1 s1' eq_refl) as (_ & (Hself1 & _ & _) & Hpar1).
  intros [= <-].
  pose proof (get_init_tokens_ok fuel2
    (resolved (mkState (set_range_table (Some t1) (set_current_tokens (Some t1) (self s1')))
                 (context s1') (reset (controller s1') t1 t1)
                 (calls s1' ++ [CallReset t1 t1])))) as Hok2.
  match type of Hok2 with context [_get_init_tokens fuel2 ?s] => set (r := s) in * end.
  assert (matched r = matched s /\ _pruned_param_names (self r) = matched s ++ matched s)
    as [Hm Hr].
  { unfold same_parameters in Hpar1. cbn in Hpar1.
    unfold r, resolved. cbn. rewrite Hself1. cbn.
    unfold matched. cbn. by rewrite Hpar1, Hnames. }
  clearbody r.
  destruct (_get_init_tokens fuel2 r) as [[t2| |] s2'];
    try discriminate.
  destruct (Hok2 t2 s2' eq_refl) as (Hlen & (Hself2 & _ & _) & _).
  intros [= <-]. cbn. rewrite Hself1, Hself2, Hr. cbn. rewrite Hnames. cbn.
  repeat split. exists t2. repeat split.
  - by rewrite last_snoc.
  - by rewrite Hlen, Hr, length_app.
Qed.

(** On the mixed sample network: [conv1_weights] twice, and two tokens. *)
Lemma second_compression_begin_duplicates_witness :
  let s := Sample.fresh Sample.mixed_net 0 in
  let s1 := Sample.mixed_ready in
  let s2 := Sample.mixed_ready_twice in
  (_pruned_param_names (self s) = []
   /\ on_compression_begin 54 s = (Ok tt, s1)
   /\ on_compression_begin 54 s1 = (Ok tt, s2)
   /\ matched s = ["conv1_weights"])
  /\ _pruned_param_names (self s1) = matched s
  /\ _pruned_param_names (self s2) = matched s ++ matched s
  /\ exists tokens,
       _current_tokens (self s2) = Some tokens
       /\ last (calls s2) = Some (CallReset tokens tokens)
       /\ length tokens = (length (matched s) + length (matched s))%nat.
Proof.
  intros s s1 s2. split; [conjuncts; vm_refl|].
  apply (second_compression_begin_duplicates 54 54 s s1 s2); vm_refl.
Defined.

(** ** A trial: [on_epoch_begin], then [on_epoch_end] *)

Section Trial.
Context `{GraphWrapper, Pruner, Controller, Matcher}.

Lemma on_epoch_begin_fires (s : State) ratios :
  begin_guard (self s) (context s) = true ->
  _tokens_to_ratios (next_tokens (controller s)).1 = Ok ratios ->
  on_epoch_begin s = (Ok tt, opened s (next_tokens (controller s)).1 ratios).
Proof.
  destruct s as [st c ct cl]. run_M. intros Hg Hr.
  unfold on_epoch_begin, opened, trial. run_M. rewrite Hg. run_M.
  rewrite Hr. unfold _prune_parameters, resync. run_M.
  by destruct st, c.
Qed.

Lemma on_epoch_begin_idle (s : State) :
  begin_guard (self s) (context s) = false -> on_epoch_begin s = (Ok tt, s).
Proof. intros Hg. unfold on_epoch_begin. unfold_M. by rewrite Hg. Qed.

Lemma foldl_set_tensor (l : list (string * Tensor)) (c : Context) :
  foldl (fun c kv => set_scope (<[kv.1 := kv.2]> (scope c)) c) c l
  = set_scope (foldl (fun acc kv => <[kv.1 := kv.2]> acc) (scope c) l) c.
Proof.
  revert c. induction l as [|kv l IH]; intros c; simpl.
  - by destruct c.
  - rewrite IH. by destruct c.
Qed.

(** [restore_tensors] writes the ledger over the tensors of the scope. *)
Lemma restore_tensors_spec (backup : gmap string Tensor) (s : State) :
  restore_tensors backup s
  = (Ok tt, mkState (self s) (set_scope (backup ∪ scope (context s)) (context s))
              (controller s) (calls s)).
Proof.
  unfold restore_tensors, set_tensor. rewrite for_each_on_context.
  by rewrite foldl_set_tensor, foldl_insert_map_to_list.
Qed.

Lemma report_and_restore_spec (s : State) history reward backup shapes :
  eval_results (context s) !! _metric_name (self s) = Some history ->
  last history = Some reward ->
  _param_backup (self s) = Some backup ->
  _param_shape_backup (self s) = Some shapes ->
  report_and_restore s = (Ok tt, closed s reward backup shapes).
Proof.
  destruct s as [st c ct cl]. run_M. intros Hm Hl Hb Hs.
  unfold report_and_restore, closed. run_M. rewrite Hm. run_M.
  rewrite Hl. run_M. rewrite Hb. run_M.
  unfold bind at 1. rewrite restore_tensors_spec. run_M. rewrite Hs. run_M.
  unfold bind at 1. rewrite restore_shapes_spec. unfold resync. run_M.
  by destruct st, c.
Qed.
End Trial.

Section EpochEnd.
Context `{GraphWrapper, Pruner, Controller}.

(** The three ways of [on_epoch_end]. *)
Lemma on_epoch_end_search (s : State) :
  end_guard (self s) (context s) = true -> on_epoch_end s = report_and_restore s.
Proof. intros Hg. unfold on_epoch_end. unfold_M. by rewrite Hg. Qed.

Lemma on_epoch_end_final (s : State) :
  end_guard (self s) (context s) = false ->
  epoch_id (context s) = end_epoch (self s) ->
  on_epoch_end s = final_commit s.
Proof.
  intros Hg He. unfold on_epoch_end. unfold_M. rewrite Hg, He.
  by rewrite Z.eqb_refl.
Qed.

Lemma on_epoch_end_idle (s : State) :
  end_guard (self s) (context s) = false ->
  epoch_id (context s) <> end_epoch (self s) ->
  on_epoch_end s = (Ok tt, s).
Proof.
  intros Hg He. unfold on_epoch_end. unfold_M. rewrite Hg.
  by apply Z.eqb_neq in He as ->.
Qed.

(** Opening a trial keeps the schedule, the epoch and the results. *)
Lemma opened_guards (s : State) tokens ratios :
  end_guard (self (opened s tokens ratios)) (context (opened s tokens ratios))
  = end_guard (self s) (context s)
  /\ epoch_id (context (opened s tokens ratios)) = epoch_id (context s)
  /\ end_epoch (self (opened s tokens ratios)) = end_epoch (self s)
  /\ eval_results (context (opened s tokens ratios)) = eval_results (context s)
  /\ _metric_name (self (opened s tokens ratios)) = _metric_name (self s).
Proof. by destruct s as [[] [] ? ?]. Qed.
End EpochEnd.

(** C3.  In the search window strictly before [end_epoch], for every
    proposal of the controller, [on_epoch_begin] prunes the optimization
    graph and [on_epoch_end] undoes it: the FLOPs, the parameter count and
    every shape of the optimization graph are what they were before the
    trial, and both ledgers are empty.  This is for a pruner that records
    every parameter it changes, a token vector that decodes, a context that
    holds a latest value of the metric, and an optimization graph whose
    grouping metadata fits its shapes before the trial. *)
Theorem trial_then_restore
    `{GraphWrapper, Pruner, Controller, !PrunerRecords}
    (s : State) ratios history reward :
  start_epoch (self s) <= epoch_id (context s) < end_epoch (self s) ->
  retrain_due (self s) (context s) = true ->
  _tokens_to_ratios (next_tokens (controller s)).1 = Ok ratios ->
  eval_results (context s) !! _metric_name (self s) = Some history ->
  last history = Some reward ->
  conv_groups (optimize_graph (context s))
  = groups_of (var_shape (optimize_graph (context s))) ->
  exists s1 s2,
    on_epoch_begin s = (Ok tt, s1)
    /\ on_epoch_end s1 = (Ok tt, s2)
    /\ var_shape (optimize_graph (context s1)) = pruned_shapes (trial s ratios)
    /\ flops (optimize_graph (context s2)) = flops (optimize_graph (context s))
    /\ numel_params (optimize_graph (context s2))
       = numel_params (optimize_graph (context s))
    /\ var_shape (optimize_graph (context s2)) = var_shape (optimize_graph (context s))
    /\ _param_backup (self s2) = Some ∅
    /\ _param_shape_backup (self s2) = Some ∅.
Proof.
  intros [Hlo Hhi] Hdue Hr Hm Hl Hsync.
  set (tokens := (next_tokens (controller s)).1) in *.
  assert (end_guard (self s) (context s) = true) as Hend.
  { unfold end_guard. rewrite Hdue.
    apply Z.leb_le in Hlo as ->. by apply Z.ltb_lt in Hhi as ->. }
  assert (begin_guard (self s) (context s) = true) as Hbegin.
  { unfold begin_guard. rewrite Hdue.
    apply Z.leb_le in Hlo as ->. assert (epoch_id (context s) <= end_epoch (self s)) as Hle by lia.
    by apply Z.leb_le in Hle as ->. }
  destruct (opened_guards s tokens ratios) as (Hg & _ & _ & Hres & Hmetric).
  exists (opened s tokens ratios),
    (closed (opened s tokens ratios) reward (tensor_backup (trial s ratios))
       (shape_backup (trial s ratios))).
  split; [by apply on_epoch_begin_fires|].
  split.
  { rewrite on_epoch_end_search by congruence.
    apply (report_and_restore_spec _ history); [congruence|done|done|done]. }
  assert (optimize_graph (context
            (closed (opened s tokens ratios) reward (tensor_backup (trial s ratios))
               (shape_backup (trial s ratios))))
          = optimize_graph (context s)) as Hog.
  { unfold closed, opened, update_groups_of_conv. cbn.
    unfold trial. rewrite shape_backup_exhaustive, <- Hsync. apply Graph_eta. }
  rewrite Hog. by repeat split.
Qed.

(** A trial on the mixed sample network at epoch 0: the proposal 50 halves
    the convolution. *)
Lemma trial_then_restore_witness :
  let s := Sample.mixed_ready in
  (start_epoch (self s) <= epoch_id (context s) < end_epoch (self s)
   /\ next_tokens (controller s) = ([50], Sample.mkProposer [[25]; [30]] [75] [])
   /\ var_shape (optimize_graph (context s)) !! "conv1_weights" = Some [4; 3; 3; 3]
   /\ var_shape (optimize_graph (context Sample.mixed_trial)) !! "conv1_weights"
      = Some [2; 3; 3; 3])
  /\ exists s1 s2,
       on_epoch_begin s = (Ok tt, s1)
       /\ on_epoch_end s1 = (Ok tt, s2)
       /\ var_shape (optimize_graph (context s1))
          = pruned_shapes (trial s [0.5%float])
       /\ flops (optimize_graph (context s2)) = flops (optimize_graph (context s))
       /\ numel_params (optimize_graph (context s2))
          = numel_params (optimize_graph (context s))
       /\ var_shape (optimize_graph (context s2))
          = var_shape (optimize_graph (context s))
       /\ _param_backup (self s2) = Some ∅
       /\ _param_shape_backup (self s2) = Some ∅.
Proof.
  intros s. split; [split; [by vm_compute|conjuncts; vm_refl]|].
  apply (trial_then_restore s [0.5%float] [0.5%float; 0.75%float] 0.75%float);
    [by vm_compute|vm_refl..].
Defined.

(** ** The retrain interval *)

Section Retrain.
Context `{GraphWrapper, Pruner, Controller, Matcher}.

#[global] Instance same_retrain_refl : Reflexive same_retrain.
Proof. by intros s. Qed.
#[global] Instance same_retrain_trans : Transitive same_retrain.
Proof. unfold same_retrain. intros s1 s2 s3 ? ?. congruence. Qed.

Lemma same_retrain_of_strategy {A} (m : M State A) :
  respects same_strategy m -> respects same_retrain m.
Proof. intros Hm s. destruct (Hm s) as (Hs & _). unfold same_retrain. by rewrite Hs. Qed.

Lemma same_retrain_on_self f :
  (forall st, _retrain_epoch (f st) = _retrain_epoch st) ->
  respects same_retrain (on_self f).
Proof. intros Hf s. apply Hf. Qed.

Lemma same_retrain_controller_reset range_table tokens :
  respects same_retrain (controller_reset range_table tokens).
Proof. by intros s. Qed.

Lemma same_retrain_controller_next_tokens :
  respects same_retrain controller_next_tokens.
Proof. by intros s. Qed.

Lemma same_retrain_controller_update tokens reward :
  respects same_retrain (controller_update tokens reward).
Proof. by intros s. Qed.

Lemma context_only_get_init_tokens fuel :
  respects same_strategy (_get_init_tokens fuel).
Proof. apply get_init_tokens_respects. by left. Qed.
End Retrain.

#[export] Hint Resolve same_retrain_controller_reset
  same_retrain_controller_next_tokens same_retrain_controller_update : frames.
#[export] Hint Resolve context_only_prune_parameters context_only_restore_shapes
  context_only_restore_tensors context_only_set_tensor context_only_resync
  context_only_get_init_tokens context_only_get_prune_ratios
  context_only_final_commit : frames.

(** Frame a hook for the retrain interval: assignments to other attributes,
    calls to the controller, and computations on the context. *)
Ltac frame_retrain :=
  repeat first
    [ solve [auto with frames typeclass_instances]
    | apply same_retrain_of_strategy; solve [auto with frames]
    | apply same_retrain_on_self; solve [by intros []]
    | apply respects_bind; [typeclasses eauto..| |intros]
    | match goal with
      | |- respects _ (match ?x with _ => _ end) => destruct x
      end ].

Section Hooks.
Context `{GraphWrapper, Pruner, Controller, Matcher}.

Lemma on_compression_begin_retrain fuel :
  respects same_retrain (on_compression_begin fuel).
Proof.
  unfold on_compression_begin. apply respects_bind; [typeclasses eauto..| |intros].
  { frame_retrain. }
  apply respects_bind; [typeclasses eauto..| |intros].
  { apply respects_for_each; [typeclasses eauto..|intros]. frame_retrain. }
  frame_retrain.
Qed.

Lemma on_epoch_begin_retrain : respects same_retrain on_epoch_begin.
Proof. unfold on_epoch_begin. frame_retrain. Qed.

Lemma on_epoch_end_retrain : respects same_retrain on_epoch_end.
Proof. unfold on_epoch_end, report_and_restore. frame_retrain. Qed.

Lemma reachable_retrain_epoch init (s : State) :
  reachable init s -> _retrain_epoch (self s) = _retrain_epoch init.
Proof.
  induction 1 as [| fuel s _ IH | s _ IH | s _ IH | s c _ IH]; try done.
  - rewrite <- IH. apply (on_compression_begin_retrain fuel s).
  - rewrite <- IH. apply (on_epoch_begin_retrain s).
  - rewrite <- IH. apply (on_epoch_end_retrain s).
Qed.
End Hooks.

(** C4.  Whatever [retrain_epoch] the constructor is given, the strategy's
    [_retrain_epoch] is 0, and no hook changes it; so in every state of a
    run, an [on_epoch_begin] that fires (on a proposal that decodes) sets
    [skip_training] to true: the flag is set to whether [_retrain_epoch]
    is 0. *)
Theorem retrain_interval_is_disabled
    `{GraphWrapper, Pruner, Controller, Matcher}
    first final lo hi metric pattern retrain inherited (s : State) ratios :
  reachable (__init__ first final lo hi metric pattern retrain inherited) s ->
  begin_guard (self s) (context s) = true ->
  _tokens_to_ratios (next_tokens (controller s)).1 = Ok ratios ->
  _retrain_epoch (__init__ first final lo hi metric pattern retrain inherited) = 0
  /\ _retrain_epoch (self s) = 0
  /\ exists s', on_epoch_begin s = (Ok tt, s')
                /\ skip_training (context s') = (_retrain_epoch (self s) =? 0)
                /\ skip_training (context s') = true.
Proof.
  intros Hreach Hg Hr. apply reachable_retrain_epoch in Hreach. cbn in Hreach.
  repeat split; try done.
  eexists. split; [by apply on_epoch_begin_fires|].
  cbn. by rewrite Hreach.
Qed.

(** The sample strategy is constructed with [retrain_epoch = 3]. *)
Lemma retrain_interval_is_disabled_witness :
  let init := __init__ 0 2 0.5 0.7 "top1_acc" "conv.*_weights" 3 None in
  let s := Sample.mixed_ready in
  (on_compression_begin 54 (mkState init (Sample.sample_context Sample.mixed_net 0)
                              (Sample.mkProposer [[50]; [25]; [30]] [75] []) [])
   = (Ok tt, s)
   /\ begin_guard (self s) (context s) = true)
  /\ _retrain_epoch init = 0
  /\ _retrain_epoch (self s) = 0
  /\ exists s', on_epoch_begin s = (Ok tt, s')
                /\ skip_training (context s') = (_retrain_epoch (self s) =? 0)
                /\ skip_training (context s') = true.
Proof.
  intros init s. split; [conjuncts; vm_refl|].
  apply (retrain_interval_is_disabled 0 2 0.5 0.7 "top1_acc" "conv.*_weights" 3 None
           s [0.5%float]).
  - vm_cast_no_check
      (reach_compression_begin init 54 _
         (reach_new init (Sample.sample_context Sample.mixed_net 0)
            (Sample.mkProposer [[50]; [25]; [30]] [75] []) [])).
  - vm_refl.
  - vm_refl.
Defined.

(** In general the flag is set to whether the retrain interval is 0. *)
Lemma skip_training_tells_retrain
    `{GraphWrapper, Pruner, Controller} (s : State) ratios s' :
  begin_guard (self s) (context s) = true ->
  _tokens_to_ratios (next_tokens (controller s)).1 = Ok ratios ->
  on_epoch_begin s = (Ok tt, s') ->
  skip_training (context s') = (_retrain_epoch (self s) =? 0).
Proof.
  intros Hg Hr. rewrite (on_epoch_begin_fires s ratios Hg Hr). by intros [= <-].
Qed.

(** ** The final epoch *)

(** The final branch leaves both ledgers as it found them, however it
    ends. *)
Lemma final_commit_keeps_ledger `{GraphWrapper, Pruner, Controller} (s : State) :
  _param_backup (self (final_commit s).2) = _param_backup (self s)
  /\ _param_shape_backup (self (final_commit s).2) = _param_shape_backup (self s).
Proof. destruct (context_only_final_commit s) as (-> & _). done. Qed.

(** C10.  A trial that [on_epoch_begin] opens at [epoch_id = end_epoch] is
    not reported: [on_epoch_begin] fires there and asks the controller for
    tokens, and [on_epoch_end] at the same epoch is the final branch, which
    makes no call to the controller: in particular [update] is not called
    with the tokens of that trial. *)
Theorem final_trial_is_never_reported
    `{GraphWrapper, Pruner, Controller} (s : State) ratios :
  epoch_id (context s) = end_epoch (self s) ->
  start_epoch (self s) <= end_epoch (self s) ->
  retrain_due (self s) (context s) = true ->
  _tokens_to_ratios (next_tokens (controller s)).1 = Ok ratios ->
  exists s1,
    on_epoch_begin s = (Ok tt, s1)
    /\ _current_tokens (self s1) = Some (next_tokens (controller s)).1
    /\ _param_shape_backup (self s1) = Some (shape_backup (trial s ratios))
    /\ calls s1 = calls s ++ [CallNextTokens]
    /\ on_epoch_end s1 = final_commit s1
    /\ calls (on_epoch_end s1).2 = calls s1
    /\ controller (on_epoch_end s1).2 = controller s1.
Proof.
  intros He Hle Hdue Hr.
  assert (begin_guard (self s) (context s) = true) as Hg.
  { unfold begin_guard. rewrite Hdue, He, Z.leb_refl.
    by apply Z.leb_le in Hle as ->. }
  set (tokens := (next_tokens (controller s)).1).
  destruct (opened_guards s tokens ratios) as (Hend & Hep & Hfin & _ & _).
  exists (opened s tokens ratios).
  assert (on_epoch_end (opened s tokens ratios) = final_commit (opened s tokens ratios))
    as Hfinal.
  { apply on_epoch_end_final; [|congruence].
    rewrite Hend. unfold end_guard. rewrite He, Z.ltb_irrefl.
    by rewrite andb_false_r. }
  split; [by apply on_epoch_begin_fires|].
  repeat split; try done; rewrite Hfinal;
    by destruct (context_only_final_commit (opened s tokens ratios)) as (_ & ? & ?).
Qed.

(** The mixed sample network at its final epoch 2. *)
Lemma final_trial_is_never_reported_witness :
  let s := Sample.at_epoch 2 Sample.mixed_ready in
  (epoch_id (context s) = end_epoch (self s)
   /\ on_epoch_begin s = (Ok tt, Sample.final_open))
  /\ exists s1,
       on_epoch_begin s = (Ok tt, s1)
       /\ _current_tokens (self s1) = Some (next_tokens (controller s)).1
       /\ _param_shape_backup (self s1) = Some (shape_backup (trial s [0.5%float]))
       /\ calls s1 = calls s ++ [CallNextTokens]
       /\ on_epoch_end s1 = final_commit s1
       /\ calls (on_epoch_end s1).2 = calls s1
       /\ controller (on_epoch_end s1).2 = controller s1.
Proof.
  intros s. split; [conjuncts; vm_refl|].
  apply (final_trial_is_never_reported s [0.5%float]);
    [vm_refl|by vm_compute|vm_refl..].
Defined.

(** C1 (the code at the failing input).  On the mixed sample network, at
    the final epoch with a trial open: the final branch reads
    [self.param_backup] at its first tensor and raises AttributeError,
    leaving the state as it was, the convolution still pruned and both
    ledgers full.  When the base class does provide that attribute, the
    branch completes and applies the best tokens (75: one slice of four is
    left), and both ledgers are still full afterwards. *)
Lemma final_epoch_keeps_ledger :
  let backup : gmap string Tensor := {[ "conv1_weights" := [1; 2; 3; 4]%float ]} in
  let shapes : gmap string shape := {[ "conv1_weights" := [4; 3; 3; 3] ]} in
  (let s := Sample.final_open in
   on_epoch_begin (Sample.at_epoch 2 Sample.mixed_ready) = (Ok tt, s)
   /\ epoch_id (context s) = end_epoch (self s)
   /\ param_backup (self s) = None
   /\ _param_backup (self s) = Some backup
   /\ _param_shape_backup (self s) = Some shapes
   /\ var_shape (optimize_graph (context s)) !! "conv1_weights" = Some [2; 3; 3; 3]
   /\ on_epoch_end s = (Raise AttributeError, s))
  /\ (let s := Sample.final_open_inheriting in
      let s2 := Sample.final_committed in
      param_backup (self s) = Some backup
      /\ on_epoch_end s = (Ok tt, s2)
      /\ var_shape (optimize_graph (context s2)) !! "conv1_weights"
         = Some [1; 3; 3; 3]
      /\ skip_training (context s2) = false
      /\ _param_backup (self s2) = Some backup
      /\ _param_shape_backup (self s2) = Some shapes).
Proof.
  intros backup shapes. split; [intros s|intros s s2]; conjuncts; vm_refl.
Qed.

(** C2 (the code at the failing input).  On the sample depthwise network
    the evaluator gives every shape back, and leaves the groups of the
    convolution at the pruned value 4 instead of 8: the FLOPs of the
    evaluation graph are 4608 before the call and 9216 after it, and the
    same tokens are refused by the first call and admitted by the
    second. *)
Lemma constrain_func_changes_flops :
  let s := Sample.depthwise_ready in
  let s1 := Sample.depthwise_checked in
  on_compression_begin 1 Sample.fresh_depthwise = (Ok tt, s)
  /\ flops (eval_graph (context s)) = 4608
  /\ conv_groups (eval_graph (context s)) !! "depthwise1_weights" = Some 8
  /\ _constrain_func [50] s = (Ok false, s1)
  /\ var_shape (eval_graph (context s1)) = var_shape (eval_graph (context s))
  /\ conv_groups (eval_graph (context s1)) !! "depthwise1_weights" = Some 4
  /\ flops (eval_graph (context s1)) = 9216
  /\ (_constrain_func [50] s1).1 = Ok true.
Proof. intros s s1. conjuncts; vm_refl. Qed.

(** * Further properties of the code *)

(** ** The codec, element by element (lines 117-125) *)

(** A list comprehension stops at its first element that raises. *)
Lemma res_map_outcome {A B} (f : A -> res B) (l : list A) :
  match res_map f l with
  | Ok l' => Forall2 (fun x y => f x = Ok y) l l'
  | Raise e =>
      exists before x after,
        l = before ++ x :: after
        /\ Forall (fun y => exists v, f y = Ok v) before
        /\ f x = Raise e
  | Running => exists x, In x l /\ f x = Running
  end.
Proof.
  induction l as [|x l IH]; simpl; [constructor|].
  unfold res_bind. destruct (f x) as [y|e|] eqn:Hx.
  - destruct (res_map f l) as [ys|e|].
    + by constructor.
    + destruct IH as (before & z & after & -> & Hb & Hz).
      exists (x :: before), z, after. repeat split; [|done].
      constructor; [by exists y|done].
    + destruct IH as (z & Hin & Hz). exists z. auto.
  - exists [], x, l. by repeat split.
  - exists x. auto.
Qed.

Lemma to_int_outcome (x : float) :
  match PyFloat.to_int x with
  | Ok _ => True
  | Raise e =>
      (e = ValueError /\ Prim2SF x = S754_nan)
      \/ (e = OverflowError /\ exists s, Prim2SF x = S754_infinity s)
  | Running => False
  end.
Proof.
  unfold PyFloat.to_int. destruct (Prim2SF x) as [s|s| |s m e]; eauto.
Qed.


(** The tokens from 0 to 100, pair by pair. *)
Lemma decodes_in_order_all :
  forallb (fun t => forallb (fun t' => (t' <=? t) || decodes_in_order t t')
                      (seqZ 0 101))
    (seqZ 0 101) = true.
Proof. vm_compute. reflexivity. Qed.

(** X2.  On the tokens from 0 to 100 [_tokens_to_ratios] raises nothing,
    decodes into [0, 1], and is strictly increasing: a larger token decodes
    to a larger ratio, so no two tokens decode to the same ratio. *)
Theorem tokens_to_ratios_in_order (t t' : Z) :
  0 <= t -> t < t' -> t' <= 100 ->
  exists r r',
    _tokens_to_ratios [t; t'] = Ok [r; r']
    /\ (0 <=? r)%float = true
    /\ (r <? r')%float = true
    /\ (r' <=? 1)%float = true.
Proof.
  intros H0 Hlt H100.
  pose proof decodes_in_order_all as Hall.
  rewrite forallb_forall in Hall.
  specialize (Hall t). rewrite forallb_forall in Hall.
  specialize (Hall ltac:(apply list_elem_of_In, elem_of_seqZ; lia) t'
                ltac:(apply list_elem_of_In, elem_of_seqZ; lia)).
  apply orb_prop in Hall as [Hle|Hd]; [apply Z.leb_le in Hle; lia|].
  unfold decodes_in_order in Hd.
  destruct (_tokens_to_ratios [t; t']) as [[|r [|r' [|? ?]]]| |];
    try discriminate Hd.
  apply andb_prop in Hd as [Hd H1]. apply andb_prop in Hd as [Hd0 Hd1].
  by exists r, r'.
Qed.

(** The tokens 29 and 30. *)
Lemma tokens_to_ratios_in_order_witness :
  (0 <= 29 /\ 29 < 30 /\ 30 <= 100)
  /\ exists r r',
       _tokens_to_ratios [29; 30] = Ok [r; r']
       /\ (0 <=? r)%float = true
       /\ (r <? r')%float = true
       /\ (r' <=? 1)%float = true.
Proof. split; [lia|]. apply (tokens_to_ratios_in_order 29 30); lia. Defined.

Lemma reencodes_all : forallb reencodes (seqZ 0 101) = true.
Proof. vm_compute. reflexivity. Qed.

(** X3.  Decoding a token from 0 to 100 with [_tokens_to_ratios] and
    encoding the ratio again with [_ratios_to_tokens] gives the token
    back, except for 29, 58 and 59, which come back one lower: in binary64
    [29 * 0.01 / 0.01] is below 29. *)
Theorem decode_then_encode (t : Z) :
  0 <= t <= 100 ->
  exists r,
    _tokens_to_ratios [t] = Ok [r]
    /\ _ratios_to_tokens [r] = Ok [reencoded t].
Proof.
  intros Ht. pose proof reencodes_all as Hall.
  rewrite forallb_forall in Hall.
  specialize (Hall t ltac:(apply list_elem_of_In, elem_of_seqZ; lia)).
  unfold reencodes in Hall.
  destruct (_tokens_to_ratios [t]) as [[|r [|? ?]]| |]; try discriminate Hall.
  destruct (_ratios_to_tokens [r]) as [[|t' [|? ?]]| |] eqn:He;
    try discriminate Hall.
  apply Z.eqb_eq in Hall as ->. by exists r.
Qed.

(** The token 58 comes back as 57. *)
Lemma decode_then_encode_witness :
  0 <= 58 <= 100
  /\ exists r, _tokens_to_ratios [58] = Ok [r] /\ _ratios_to_tokens [r] = Ok [57].
Proof. split; [lia|]. apply (decode_then_encode 58). lia. Defined.

(** ** The order of binary64 numbers *)

Lemma SFleb_trans a b c :
  SFleb a b = true -> SFleb b c = true -> SFleb a c = true.
Proof.
  unfold SFleb, SFcompare.
  destruct a as [sa|sa| |sa ma ea], b as [sb|sb| |sb mb eb],
    c as [sc|sc| |sc mc ec];
    try destruct sa; try destruct sb; try destruct sc; try done;
    rewrite <- ?Pos.compare_cont_spec; cbn [Pos.switch_Eq];
    fold (Pos.compare ma mb); fold (Pos.compare mb mc); fold (Pos.compare ma mc);
    destruct (Z.compare_spec ea eb), (Z.compare_spec eb ec), (Z.compare_spec ea ec);
    try done; try lia; subst;
    destruct (Pos.compare_spec ma mb), (Pos.compare_spec mb mc),
      (Pos.compare_spec ma mc); cbn; try done; try lia.
Qed.

Lemma float_leb_trans (x y z : float) :
  (x <=? y)%float = true -> (y <=? z)%float = true -> (x <=? z)%float = true.
Proof. rewrite !leb_spec. apply SFleb_trans. Qed.

(** ** The constraint evaluator: verdict, errors and frame (lines 87-109) *)

Lemma one_minus_quotient_nonzero n d x :
  one_minus_quotient n d = Ok x -> d <> 0.
Proof.
  unfold one_minus_quotient, PyFloat.div_int, res_bind.
  destruct (PyFloat.of_int n); [|done..].
  destruct (PyFloat.of_int d); [|done..].
  destruct (d =? 0) eqn:Hd; [done|]. intros _. by apply Z.eqb_neq.
Qed.

Lemma one_minus_quotient_raise n d e :
  one_minus_quotient n d = Raise e ->
  e = OverflowError \/ (e = ZeroDivisionError /\ d = 0).
Proof.
  unfold one_minus_quotient, PyFloat.div_int, PyFloat.of_int, res_bind.
  destruct (binary_normalize prec emax n 0 false);
    destruct (binary_normalize prec emax d 0 false);
    destruct (d =? 0) eqn:Hd; try apply Z.eqb_eq in Hd;
    intros [= <-]; auto.
Qed.

Lemma one_minus_quotient_by_zero n :
  one_minus_quotient n 0 = Raise ZeroDivisionError
  \/ one_minus_quotient n 0 = Raise OverflowError.
Proof.
  unfold one_minus_quotient, PyFloat.div_int, PyFloat.of_int, res_bind.
  destruct (binary_normalize prec emax n 0 false); auto.
Qed.

Lemma tokens_to_ratios_raise tokens e :
  _tokens_to_ratios tokens = Raise e -> e = OverflowError.
Proof.
  unfold _tokens_to_ratios. induction tokens as [|t tokens IH]; [done|].
  simpl. unfold PyFloat.int_mul, PyFloat.of_int, res_bind at 1 2.
  destruct (binary_normalize prec emax t 0 false); try (by intros [= <-]);
    (destruct (res_map _ tokens); [done|by auto|done]).
Qed.

Lemma tokens_to_ratios_not_running tokens : _tokens_to_ratios tokens <> Running.
Proof.
  unfold _tokens_to_ratios. induction tokens as [|t tokens IH]; [done|].
  simpl. unfold PyFloat.int_mul, PyFloat.of_int, res_bind at 1 2.
  destruct (binary_normalize prec emax t 0 false); try done;
    by destruct (res_map _ tokens).
Qed.

Section ConstraintVerdict.
Context `{GraphWrapper, Pruner, Controller, Matcher}.

(** The result of [_constrain_func] for tokens that decode: the band test
    on the reduction measured with the groups updated (lines 101-106). *)
Lemma constrain_func_result tokens ratios (s : State) :
  _tokens_to_ratios tokens = Ok ratios ->
  (_constrain_func tokens s).1
  = res_bind
      (one_minus_quotient
         (flops (update_groups_of_conv
                   (mkGraph (all_parameters (eval_graph (context s)))
                      (pruned_shapes (trial_of s ratios))
                      (conv_groups (eval_graph (context s))))))
         (flops (eval_graph (context s))))
      (fun pf => Ok ((_min_ratio (self s) <=? pf)%float
                     && (pf <=? _max_ratio (self s))%float)).
Proof.
  intros Hr. unfold _constrain_func, _prune_parameters, trial_of.
  unfold_M. rewrite Hr. cbn [graph_of set_graph fst snd].
  rewrite restore_shapes_spec.
  destruct s as [st [eg og sc ep er sk cmp] ct cl]. cbn.
  destruct (one_minus_quotient _ _) as [v| |]; [|done..].
  cbn. by destruct (_ && _).
Qed.
End ConstraintVerdict.

(** X4.  [_constrain_func] writes to nothing but the grouping metadata of
    the evaluation graph.  However it ends, the strategy, the controller
    and the log of its calls, the tensors of the scope, the optimization
    graph, the parameters and every shape of the evaluation graph, and the
    other fields of the context are as before.  (The pruner keeps an
    exhaustive ledger, and its graph-only mode touches no tensor.) *)
Theorem constrain_func_frame
    `{GraphWrapper, Pruner, Controller, Matcher, !PrunerRecords, !PrunerGraphOnly}
    tokens (s : State) :
  self (_constrain_func tokens s).2 = self s
  /\ controller (_constrain_func tokens s).2 = controller s
  /\ calls (_constrain_func tokens s).2 = calls s
  /\ scope (context (_constrain_func tokens s).2) = scope (context s)
  /\ optimize_graph (context (_constrain_func tokens s).2) = optimize_graph (context s)
  /\ all_parameters (eval_graph (context (_constrain_func tokens s).2))
     = all_parameters (eval_graph (context s))
  /\ var_shape (eval_graph (context (_constrain_func tokens s).2))
     = var_shape (eval_graph (context s))
  /\ epoch_id (context (_constrain_func tokens s).2) = epoch_id (context s)
  /\ eval_results (context (_constrain_func tokens s).2) = eval_results (context s)
  /\ skip_training (context (_constrain_func tokens s).2) = skip_training (context s)
  /\ compiled (context (_constrain_func tokens s).2) = compiled (context s).
Proof.
  destruct (_tokens_to_ratios tokens) as [ratios|e|] eqn:Hr.
  - rewrite (constrain_func_state _ _ _ Hr). unfold after_constrain, trial_of.
    cbn. rewrite shape_backup_exhaustive, graph_only_keeps_scope. done.
  - by rewrite (constrain_func_raise _ _ _ Hr).
  - by apply tokens_to_ratios_not_running in Hr.
Qed.

(** The sample depthwise network and the tokens 50. *)
Lemma constrain_func_frame_witness :
  let s := Sample.depthwise_ready in
  let s' := (_constrain_func [50] s).2 in
  s' = Sample.depthwise_checked
  /\ self s' = self s
  /\ controller s' = controller s
  /\ calls s' = calls s
  /\ scope (context s') = scope (context s)
  /\ optimize_graph (context s') = optimize_graph (context s)
  /\ all_parameters (eval_graph (context s')) = all_parameters (eval_graph (context s))
  /\ var_shape (eval_graph (context s')) = var_shape (eval_graph (context s))
  /\ epoch_id (context s') = epoch_id (context s)
  /\ eval_results (context s') = eval_results (context s)
  /\ skip_training (context s') = skip_training (context s)
  /\ compiled (context s') = compiled (context s).
Proof.
  split; [vm_refl|]. apply (constrain_func_frame [50] Sample.depthwise_ready).
Defined.

(** X5.  When [_min_ratio <= _max_ratio] does not hold (the bounds are
    exchanged, as by a caller who follows the docstring of [__init__], or
    one of them is a NaN), [_constrain_func] admits no token vector: it
    never returns True. *)
Theorem constrain_func_swapped_bounds
    `{GraphWrapper, Pruner, Controller, Matcher} tokens (s : State) :
  (_min_ratio (self s) <=? _max_ratio (self s))%float = false ->
  (_constrain_func tokens s).1 <> Ok true.
Proof.
  intros Hband. destruct (_tokens_to_ratios tokens) as [ratios|e|] eqn:Hr.
  - rewrite (constrain_func_result _ _ _ Hr).
    destruct (one_minus_quotient _ _) as [pf| |]; cbn; [|done..].
    intros [= Hb]. apply andb_prop in Hb as [Hlo Hhi].
    by rewrite (float_leb_trans _ _ _ Hlo Hhi) in Hband.
  - by rewrite (constrain_func_raise _ _ _ Hr).
  - by apply tokens_to_ratios_not_running in Hr.
Qed.

(** The sample convolution with the band 0.7 to 0.5: the tokens 60 reduce
    the FLOPs by one half, and are refused. *)
Lemma constrain_func_swapped_bounds_witness :
  let s := Sample.selected ["conv1_weights"] Sample.swapped_band in
  ((_min_ratio (self s) <=? _max_ratio (self s))%float = false
   /\ (_constrain_func [60] s).1 = Ok false)
  /\ (_constrain_func [60] s).1 <> Ok true.
Proof.
  intros s. split; [conjuncts; vm_refl|].
  apply (constrain_func_swapped_bounds [60] s). vm_refl.
Defined.

(** X6.  What [_constrain_func] returns and raises.  A verdict is the band
    test [_min_ratio <= r <= _max_ratio] on the reduction
    [r = 1 - float(flops) / ori_flops], where [flops] is counted on the
    pruned evaluation graph with its groups updated; it is returned only
    when [ori_flops] is not 0.  The only exceptions are OverflowError (a
    token or a FLOPs count too large for a float) and ZeroDivisionError,
    the latter only when the evaluation graph has no FLOPs. *)
Theorem constrain_func_outcome
    `{GraphWrapper, Pruner, Controller, Matcher} tokens (s : State) :
  match (_constrain_func tokens s).1 with
  | Ok verdict =>
      flops (eval_graph (context s)) <> 0
      /\ exists ratios pf,
           _tokens_to_ratios tokens = Ok ratios
           /\ one_minus_quotient
                (flops (update_groups_of_conv
                          (mkGraph (all_parameters (eval_graph (context s)))
                             (pruned_shapes (trial_of s ratios))
                             (conv_groups (eval_graph (context s))))))
                (flops (eval_graph (context s))) = Ok pf
           /\ verdict = (_min_ratio (self s) <=? pf)%float
                        && (pf <=? _max_ratio (self s))%float
  | Raise e =>
      e = OverflowError
      \/ (e = ZeroDivisionError /\ flops (eval_graph (context s)) = 0)
  | Running => False
  end.
Proof.
  destruct (_tokens_to_ratios tokens) as [ratios|e|] eqn:Hr.
  - rewrite (constrain_func_result _ _ _ Hr).
    destruct (one_minus_quotient _ _) as [pf|e|] eqn:Hq; cbn.
    + split; [by eapply one_minus_quotient_nonzero|]. by exists ratios, pf.
    + by apply one_minus_quotient_raise in Hq.
    + destruct (one_minus_quotient_cases
                  (flops (update_groups_of_conv
                            (mkGraph (all_parameters (eval_graph (context s)))
                               (pruned_shapes (trial_of s ratios))
                               (conv_groups (eval_graph (context s))))))
                  (flops (eval_graph (context s)))) as [[x Hx]|[Hx|Hx]];
        congruence.
  - rewrite (constrain_func_raise _ _ _ Hr). cbn.
    left. by eapply tokens_to_ratios_raise.
  - by apply tokens_to_ratios_not_running in Hr.
Qed.

(** ** The search when it raises (lines 134-155) *)

Section SearchFailure.
Context `{GraphWrapper, Pruner, Controller, Matcher}.

(** An iteration that raises does so at one of its two quotients (lines
    150-152), before the shapes are written back (lines 153-155). *)
Lemma iteration_raise_state target flops0 model_size l (s : State) e s' :
  iteration target flops0 model_size l s = (Raise e, s') ->
  s' = probed s (midpoint l).
Proof.
  unfold iteration, _prune_parameters, probed, trial_of, midpoint.
  unfold_M. cbn [graph_of set_graph fst snd].
  destruct s as [st [eg og sc ep er sk cmp] ct cl]. cbn.
  destruct (one_minus_quotient _ flops0); cbn; [|by intros [= _ <-]|done].
  destruct (one_minus_quotient _ model_size); cbn; [|by intros [= _ <-]|done].
  rewrite restore_shapes_spec. cbn.
  destruct (_ <? 0.01)%float; [|destruct (_ <? _)%float]; cbn; done.
Qed.

Lemma uniform_search_raise_state `{!PrunerRecords, !PrunerGraphOnly}
    fuel target flops0 model_size l (s : State) e s' :
  uniform_search fuel target flops0 model_size l s = (Raise e, s') ->
  exists ratio, s' = probed s ratio.
Proof.
  revert l. induction fuel as [|fuel IH]; intros l; simpl;
    destruct (min_ratio l <? max_ratio l)%float; try discriminate.
  unfold bind.
  destruct (iteration target flops0 model_size l s) as [[[x'|l']| |] s1] eqn:Hit;
    try discriminate.
  - apply iteration_state in Hit as ->. apply IH.
  - intros [= <- <-]. exists (midpoint l). by eapply iteration_raise_state.
Qed.

(** With no FLOPs or no parameters to divide by, an iteration raises. *)
Lemma iteration_by_zero target flops0 model_size l (s : State) :
  flops0 = 0 \/ model_size = 0 ->
  (iteration target flops0 model_size l s).1 = Raise ZeroDivisionError
  \/ (iteration target flops0 model_size l s).1 = Raise OverflowError.
Proof.
  intros Hz. pose proof (iteration_outcome target flops0 model_size l s) as Ho.
  destruct (iteration target flops0 model_size l s) as [[r| |] s1] eqn:Hit;
    cbn in *; [|destruct Ho as [-> | ->]; auto|done].
  exfalso. clear Ho. revert Hit.
  unfold iteration, _prune_parameters. unfold_M. cbn [graph_of set_graph fst snd].
  destruct s as [st [eg og sc ep er sk cmp] ct cl]. cbn.
  destruct (one_minus_quotient _ flops0) as [pf| |] eqn:Hf; cbn; [|done..].
  destruct (one_minus_quotient _ model_size) as [ps| |] eqn:Hm; cbn; [|done..].
  destruct Hz as [-> | ->].
  - match type of Hf with one_minus_quotient ?n 0 = _ =>
      destruct (one_minus_quotient_by_zero n); congruence end.
  - match type of Hm with one_minus_quotient ?n 0 = _ =>
      destruct (one_minus_quotient_by_zero n); congruence end.
Qed.
End SearchFailure.

(** X7.  When [_get_uniform_ratios] raises, it leaves the evaluation graph
    pruned: the exception comes from one of the two quotients of an
    iteration, before the loop that writes the shapes back, so the shapes
    of the evaluation graph are those of the trial of that iteration; the
    rest of the state is as before.  (The pruner keeps an exhaustive
    ledger, and its graph-only mode touches no tensor.) *)
Theorem search_failure_leaves_graph_pruned
    `{GraphWrapper, Pruner, Controller, Matcher, !PrunerRecords, !PrunerGraphOnly}
    fuel (s : State) e s' :
  _get_uniform_ratios fuel s = (Raise e, s') ->
  exists ratio,
    s' = probed s ratio
    /\ var_shape (eval_graph (context s'))
       = pruned_shapes
           (trial_of s (repeat ratio (length (_pruned_param_names (self s))))).
Proof.
  rewrite get_uniform_ratios_unfold. unfold search_of.
  pose proof (uniform_search_ratios fuel (target_of (self s))
    (flops (eval_graph (context s))) (numel_params (eval_graph (context s)))
    initial_locals s) as Hs.
  destruct (uniform_search _ _ _ _ _ s) as [[x| |] s1] eqn:Hx; [| |done].
  - destruct (Hs x s1) as [rs Hrs]; [done|by left|]. by rewrite Hrs.
  - intros [= <- <-]. apply uniform_search_raise_state in Hx as [ratio ->].
    by exists ratio.
Qed.

(** The hollow sample network: the search raises in its first iteration
    and leaves two of the four filters. *)
Lemma search_failure_leaves_graph_pruned_witness :
  let s := Sample.selected ["conv1_weights"] (Sample.fresh Sample.hollow_net 0) in
  let s' := Sample.hollow_probed in
  (_get_uniform_ratios 1 s = (Raise ZeroDivisionError, s')
   /\ var_shape (eval_graph (context s)) !! "conv1_weights" = Some [4; 0; 3; 3]
   /\ var_shape (eval_graph (context s')) !! "conv1_weights" = Some [2; 0; 3; 3])
  /\ exists ratio,
       s' = probed s ratio
       /\ var_shape (eval_graph (context s'))
          = pruned_shapes
              (trial_of s (repeat ratio (length (_pruned_param_names (self s))))).
Proof.
  intros s s'. split; [conjuncts; vm_refl|].
  apply (search_failure_leaves_graph_pruned 1 s ZeroDivisionError s'). vm_refl.
Defined.

(** X8.  [_get_uniform_ratios] divides by the FLOPs and by the parameter
    count of the evaluation graph in its first iteration.  When either is
    0 it raises there, ZeroDivisionError or OverflowError, under every
    budget of at least one iteration; this holds for the parameter count
    although [pruned_size] is used nowhere. *)
Theorem search_needs_flops_and_size
    `{GraphWrapper, Pruner, Controller, Matcher} fuel (s : State) :
  flops (eval_graph (context s)) = 0
  \/ numel_params (eval_graph (context s)) = 0 ->
  (_get_uniform_ratios (S fuel) s).1 = Raise ZeroDivisionError
  \/ (_get_uniform_ratios (S fuel) s).1 = Raise OverflowError.
Proof.
  intros Hz. rewrite get_uniform_ratios_unfold. unfold search_of.
  cbn [uniform_search].
  change (min_ratio initial_locals <? max_ratio initial_locals)%float with true.
  cbn match. unfold bind.
  pose proof (iteration_by_zero (target_of (self s))
    (flops (eval_graph (context s))) (numel_params (eval_graph (context s)))
    initial_locals s Hz) as Hi.
  destruct (iteration _ _ _ _ s) as [[r| |] s1]; cbn in *;
    destruct Hi as [Hi|Hi]; try discriminate; injection Hi as ->; auto.
Qed.

(** The hollow sample network has no FLOPs. *)
Lemma search_needs_flops_and_size_witness :
  let s := Sample.selected ["conv1_weights"] (Sample.fresh Sample.hollow_net 0) in
  (flops (eval_graph (context s)) = 0
   \/ numel_params (eval_graph (context s)) = 0)
  /\ ((_get_uniform_ratios 1 s).1 = Raise ZeroDivisionError
      \/ (_get_uniform_ratios 1 s).1 = Raise OverflowError).
Proof.
  intros s. split; [left; vm_refl|].
  apply (search_needs_flops_and_size 0 s). left. vm_refl.
Defined.

(** ** What [on_compression_begin] leaves (lines 67-85) *)

Section InitialTokens.
Context `{GraphWrapper, Pruner, Controller, Matcher}.

(** Every list of ratios the loop builds is one ratio, repeated. *)
Lemma uniform_search_uniform fuel target flops0 model_size l (s : State) x s' :
  uniform_search fuel target flops0 model_size l s = (Ok x, s') ->
  (forall rs, ratios l = Some rs ->
              exists r, rs = repeat r (length (_pruned_param_names (self s)))) ->
  forall rs, ratios x = Some rs ->
             exists r, rs = repeat r (length (_pruned_param_names (self s))).
Proof.
  revert l s. induction fuel as [|fuel IH]; intros l s; simpl;
    destruct (min_ratio l <? max_ratio l)%float; try discriminate;
    try (intros [= <- <-]; done).
  unfold bind. pose proof (iteration_outcome target flops0 model_size l s) as Hi.
  pose proof (iteration_respects same_strategy target flops0 model_size l
                (or_introl eq_refl) s) as (Hself & _ & _).
  destruct (iteration target flops0 model_size l s) as [[[x'|l']| |] s1];
    simpl in *; try discriminate; destruct Hi as (pf & _ & Hr);
    revert Hr; unfold narrow;
    destruct (abs (pf - target) <? 0.01)%float;
    [|destruct (target <? pf)%float| |destruct (target <? pf)%float];
    intros Hr; inversion Hr; subst; clear Hr.
  - intros [= <- <-] _ rs [= <-]. by eexists.
  - intros Hx _. rewrite <- Hself. apply (IH _ _ Hx).
    intros rs [= <-]. rewrite Hself. by eexists.
  - intros Hx _. rewrite <- Hself. apply (IH _ _ Hx).
    intros rs [= <-]. rewrite Hself. by eexists.
Qed.

Lemma ratios_to_tokens_repeat r n ts :
  _ratios_to_tokens (repeat r n) = Ok ts -> exists t, ts = repeat t n.
Proof.
  unfold _ratios_to_tokens. destruct n as [|n]; [intros [= <-]; by exists 0|].
  cbn [repeat res_map]. unfold res_bind at 1.
  destruct (PyFloat.to_int (r / 0.01)) as [t| |] eqn:Ht; try discriminate.
  intros Hts. exists t. revert ts Hts. induction n as [|n IH]; intros ts.
  - by intros [= <-].
  - cbn [repeat res_map]. unfold res_bind at 1 2. rewrite Ht.
    unfold res_bind at 1 in IH.
    destruct (res_map _ (repeat r n)) as [ts'| |]; try discriminate.
    intros [= <-]. by rewrite (IH _ eq_refl).
Qed.

(** The initial tokens are one token, repeated for every selected
    parameter. *)
Lemma get_init_tokens_uniform fuel (s : State) tokens s' :
  _get_init_tokens fuel s = (Ok tokens, s') ->
  exists token, tokens = repeat token (length (_pruned_param_names (self s))).
Proof.
  unfold _get_init_tokens. unfold bind at 1.
  rewrite get_uniform_ratios_unfold. unfold search_of.
  destruct (uniform_search _ _ _ _ _ s) as [[x| |] s1] eqn:Hx; try discriminate.
  destruct (ratios x) as [rs|] eqn:Hrs; try discriminate.
  unfold lift. destruct (_ratios_to_tokens rs) as [ts| |] eqn:Hts; try discriminate.
  intros [= <- <-].
  destruct (uniform_search_uniform _ _ _ _ _ _ _ _ Hx ltac:(done) rs Hrs) as [r ->].
  by apply ratios_to_tokens_repeat in Hts.
Qed.
End InitialTokens.

(** X9.  When [on_compression_begin] returns, it has appended the matched
    parameter names, in the order of the graph, to the selected list, and
    has called the controller once, with [reset]: the range table and the
    initial tokens it hands over are the same vector, one token repeated
    for every selected name, and that vector is what [_current_tokens] and
    [_range_table] hold. *)
Theorem compression_begin_resets_once
    `{GraphWrapper, Pruner, Controller, Matcher} fuel (s s' : State) :
  on_compression_begin fuel s = (Ok tt, s') ->
  exists token,
    let names := _pruned_param_names (self s) ++ matched s in
    let tokens := repeat token (length names) in
    _pruned_param_names (self s') = names
    /\ _current_tokens (self s') = Some tokens
    /\ _range_table (self s') = Some tokens
    /\ controller s' = reset (controller s) tokens tokens
    /\ calls s' = calls s ++ [CallReset tokens tokens].
Proof.
  rewrite on_compression_begin_unfold.
  pose proof (get_init_tokens_ok fuel (resolved s)) as Hok.
  pose proof (get_init_tokens_uniform fuel (resolved s)) as Hun.
  destruct (_get_init_tokens fuel (resolved s)) as [[tokens| |] s2];
    try discriminate.
  destruct (Hok tokens s2 eq_refl) as (_ & (Hself & Hctl & Hcalls) & _).
  destruct (Hun tokens s2 eq_refl) as [token ->].
  intros [= <-]. exists token. cbn. rewrite Hself, Hctl, Hcalls. done.
Qed.

(** The mixed sample network: one name, and the token 100. *)
Lemma compression_begin_resets_once_witness :
  let s := Sample.fresh Sample.mixed_net 0 in
  let s' := Sample.mixed_ready in
  (on_compression_begin 54 s = (Ok tt, s')
   /\ _pruned_param_names (self s') = ["conv1_weights"]
   /\ _current_tokens (self s') = Some [100])
  /\ exists token,
       let names := _pruned_param_names (self s) ++ matched s in
       let tokens := repeat token (length names) in
       _pruned_param_names (self s') = names
       /\ _current_tokens (self s') = Some tokens
       /\ _range_table (self s') = Some tokens
       /\ controller s' = reset (controller s) tokens tokens
       /\ calls s' = calls s ++ [CallReset tokens tokens].
Proof.
  intros s s'. split; [conjuncts; vm_refl|].
  apply (compression_begin_resets_once 54 s s'). vm_refl.
Defined.

(** X10.  When [on_compression_begin] raises, the selection has already
    been made: the matched names are appended to the selected list (line
    76 runs before line 78), every other attribute of the strategy is as
    before, and the controller has not been called.  A second call after
    the failure selects every matched name again. *)
Theorem compression_begin_failure_keeps_selection
    `{GraphWrapper, Pruner, Controller, Matcher} fuel (s : State) e s' :
  on_compression_begin fuel s = (Raise e, s') ->
  self s'
  = set_pruned_param_names (_pruned_param_names (self s) ++ matched s) (self s)
  /\ controller s' = controller s
  /\ calls s' = calls s.
Proof.
  rewrite on_compression_begin_unfold.
  pose proof (get_init_tokens_respects same_strategy fuel (or_introl eq_refl)
                (resolved s)) as Hs.
  destruct (_get_init_tokens fuel (resolved s)) as [[tokens| |] s2];
    try discriminate.
  intros [= <- <-]. exact Hs.
Qed.

(** The hollow sample network: the search divides by zero. *)
Lemma compression_begin_failure_keeps_selection_witness :
  let s := Sample.fresh Sample.hollow_net 0 in
  let s' := Sample.hollow_failed in
  (on_compression_begin 1 s = (Raise ZeroDivisionError, s')
   /\ _pruned_param_names (self s) = []
   /\ _pruned_param_names (self s') = ["conv1_weights"]
   /\ _current_tokens (self s') = None)
  /\ self s'
     = set_pruned_param_names (_pruned_param_names (self s) ++ matched s) (self s)
  /\ controller s' = controller s
  /\ calls s' = calls s.
Proof.
  intros s s'. split; [conjuncts; vm_refl|].
  apply (compression_begin_failure_keeps_selection 1 s ZeroDivisionError s').
  vm_refl.
Defined.

(** ** The search branch of [on_epoch_end], step by step (lines 203-221) *)

Section SearchBranch.
Context `{GraphWrapper, Pruner, Controller, Matcher}.

Lemma report_and_restore_no_metric (s : State) :
  eval_results (context s) !! _metric_name (self s) = None ->
  report_and_restore s = (Raise KeyError, s).
Proof.
  destruct s as [st c ct cl]. run_M. intros Hm.
  unfold report_and_restore. run_M. by rewrite Hm.
Qed.

Lemma report_and_restore_no_value (s : State) history :
  eval_results (context s) !! _metric_name (self s) = Some history ->
  last history = None ->
  report_and_restore s = (Raise IndexError, s).
Proof.
  destruct s as [st c ct cl]. run_M. intros Hm Hl.
  unfold report_and_restore. run_M. rewrite Hm. run_M. by rewrite Hl.
Qed.

Lemma report_and_restore_no_ledger (s : State) history reward :
  eval_results (context s) !! _metric_name (self s) = Some history ->
  last history = Some reward ->
  _param_backup (self s) = None ->
  report_and_restore s = (Raise AttributeError, reported s reward).
Proof.
  destruct s as [st c ct cl]. run_M. intros Hm Hl Hb.
  unfold report_and_restore, reported. run_M. rewrite Hm. run_M.
  rewrite Hl. run_M. by rewrite Hb.
Qed.

Lemma report_and_restore_no_shapes (s : State) history reward backup :
  eval_results (context s) !! _metric_name (self s) = Some history ->
  last history = Some reward ->
  _param_backup (self s) = Some backup ->
  _param_shape_backup (self s) = None ->
  report_and_restore s
  = (Raise AttributeError,
     mkState (set_param_backup ∅ (self s))
       (set_scope (backup ∪ scope (context s)) (context s))
       (update (controller s) (_current_tokens (self s)) reward)
       (calls s ++ [CallUpdate (_current_tokens (self s)) reward])).
Proof.
  destruct s as [st c ct cl]. run_M. intros Hm Hl Hb Hs.
  unfold report_and_restore. run_M. rewrite Hm. run_M.
  rewrite Hl. run_M. rewrite Hb. run_M.
  unfold bind at 1. rewrite restore_tensors_spec. run_M. by rewrite Hs.
Qed.

(** However the search branch ends, it has called the controller at most
    once, with [update]. *)
Lemma report_and_restore_calls (s : State) :
  (controller (report_and_restore s).2 = controller s
   /\ calls (report_and_restore s).2 = calls s)
  \/ exists reward,
       controller (report_and_restore s).2
       = update (controller s) (_current_tokens (self s)) reward
       /\ calls (report_and_restore s).2
          = calls s ++ [CallUpdate (_current_tokens (self s)) reward].
Proof.
  destruct (eval_results (context s) !! _metric_name (self s)) as [history|] eqn:Hm;
    [|left; by rewrite report_and_restore_no_metric].
  destruct (last history) as [reward|] eqn:Hl;
    [|left; by rewrite (report_and_restore_no_value _ _ Hm Hl)].
  right. exists reward.
  destruct (_param_backup (self s)) as [backup|] eqn:Hb;
    [|by rewrite (report_and_restore_no_ledger _ _ _ Hm Hl Hb)].
  destruct (_param_shape_backup (self s)) as [shapes|] eqn:Hs.
  - by rewrite (report_and_restore_spec _ _ _ _ _ Hm Hl Hb Hs).
  - by rewrite (report_and_restore_no_shapes _ _ _ _ Hm Hl Hb Hs).
Qed.
End SearchBranch.

(** X11.  In the search window, [on_epoch_end] reads the latest value of
    the metric before anything else (line 203).  When [eval_results] has
    no entry for [_metric_name] it raises KeyError, and when the entry is
    an empty list it raises IndexError; in both cases nothing has been
    done: the controller is not updated and the trial is not undone. *)
Theorem epoch_end_needs_metric `{GraphWrapper, Pruner, Controller} (s : State) :
  end_guard (self s) (context s) = true ->
  (eval_results (context s) !! _metric_name (self s) = None ->
   on_epoch_end s = (Raise KeyError, s))
  /\ (eval_results (context s) !! _metric_name (self s) = Some [] ->
      on_epoch_end s = (Raise IndexError, s)).
Proof.
  intros Hg. rewrite (on_epoch_end_search _ Hg). split; intros Hm.
  - by apply report_and_restore_no_metric.
  - by apply (report_and_restore_no_value _ []).
Qed.

(** The trial on the mixed sample network, without results and with an
    empty list of results. *)
Lemma epoch_end_needs_metric_witness :
  let s := Sample.with_results ∅ Sample.mixed_trial in
  let s0 := Sample.with_results {[ "top1_acc" := [] ]} Sample.mixed_trial in
  end_guard (self s) (context s) = true
  /\ end_guard (self s0) (context s0) = true
  /\ on_epoch_end s = (Raise KeyError, s)
  /\ on_epoch_end s0 = (Raise IndexError, s0).
Proof.
  intros s s0. split; [vm_refl|]. split; [vm_refl|]. split.
  - refine (proj1 (epoch_end_needs_metric s _) _); vm_refl.
  - refine (proj2 (epoch_end_needs_metric s0 _) _); vm_refl.
Defined.

(** X12.  In the search window, an [on_epoch_end] that no [on_epoch_begin]
    preceded (the strategy has no [_param_backup] yet) still reports to
    the controller: [update] is called with [_current_tokens] (the initial
    tokens, or None) and the latest value of the metric, and only then
    does the hook raise AttributeError, at line 207. *)
Theorem epoch_end_without_trial
    `{GraphWrapper, Pruner, Controller} (s : State) history reward :
  end_guard (self s) (context s) = true ->
  eval_results (context s) !! _metric_name (self s) = Some history ->
  last history = Some reward ->
  _param_backup (self s) = None ->
  on_epoch_end s = (Raise AttributeError, reported s reward).
Proof.
  intros Hg Hm Hl Hb. rewrite (on_epoch_end_search _ Hg).
  by apply (report_and_restore_no_ledger _ history).
Qed.

(** The mixed sample network right after [on_compression_begin]: the
    reward 0.75 is reported for the initial tokens, which no trial used. *)
Lemma epoch_end_without_trial_witness :
  let s := Sample.mixed_ready in
  (end_guard (self s) (context s) = true
   /\ _param_backup (self s) = None
   /\ _current_tokens (self s) = Some [100]
   /\ calls (reported s 0.75)
      = [CallReset [100] [100]; CallUpdate (Some [100]) 0.75])
  /\ on_epoch_end s = (Raise AttributeError, reported s 0.75).
Proof.
  intros s. split; [conjuncts; vm_refl|].
  apply (epoch_end_without_trial s [0.5; 0.75]%float 0.75%float); vm_refl.
Defined.

(** X13.  In the search window, with a latest value of the metric and
    both ledgers in place, [on_epoch_end] returns, and: the controller is
    updated once, with [_current_tokens] and that value; every tensor and
    every shape recorded in a ledger is written back to the scope and to
    the optimization graph, and no other is touched; both ledgers are
    left empty; [_current_tokens] and [skip_training] are as before (the
    flag set by [on_epoch_begin] is not cleared); and the optimization
    graph is compiled once. *)
Theorem epoch_end_writes_ledger_back
    `{GraphWrapper, Pruner, Controller} (s : State) history reward backup shapes :
  end_guard (self s) (context s) = true ->
  eval_results (context s) !! _metric_name (self s) = Some history ->
  last history = Some reward ->
  _param_backup (self s) = Some backup ->
  _param_shape_backup (self s) = Some shapes ->
  exists s',
    on_epoch_end s = (Ok tt, s')
    /\ controller s' = update (controller s) (_current_tokens (self s)) reward
    /\ calls s' = calls s ++ [CallUpdate (_current_tokens (self s)) reward]
    /\ (forall name,
          scope (context s') !! name
          = match backup !! name with
            | Some value => Some value
            | None => scope (context s) !! name
            end)
    /\ (forall name,
          var_shape (optimize_graph (context s')) !! name
          = match shapes !! name with
            | Some sh => Some sh
            | None => var_shape (optimize_graph (context s)) !! name
            end)
    /\ _param_backup (self s') = Some ∅
    /\ _param_shape_backup (self s') = Some ∅
    /\ _current_tokens (self s') = _current_tokens (self s)
    /\ skip_training (context s') = skip_training (context s)
    /\ compiled (context s') = S (compiled (context s)).
Proof.
  intros Hg Hm Hl Hb Hs. exists (closed s reward backup shapes).
  split.
  { rewrite (on_epoch_end_search _ Hg). by apply (report_and_restore_spec _ history). }
  unfold closed. cbn. repeat split.
  - intros name. rewrite lookup_union.
    by destruct (backup !! name), (scope (context s) !! name).
  - intros name. rewrite lookup_union.
    by destruct (shapes !! name), (var_shape (optimize_graph (context s)) !! name).
Qed.

(** The trial on the mixed sample network: the convolution gets its four
    weights back. *)
Lemma epoch_end_writes_ledger_back_witness :
  let s := Sample.mixed_trial in
  let backup : gmap string Tensor := {[ "conv1_weights" := [1; 2; 3; 4]%float ]} in
  let shapes : gmap string shape := {[ "conv1_weights" := [4; 3; 3; 3] ]} in
  (end_guard (self s) (context s) = true
   /\ scope (context s) !! "conv1_weights" = Some [1; 2]%float
   /\ on_epoch_end s = (Ok tt, Sample.mixed_restored)
   /\ scope (context Sample.mixed_restored) !! "conv1_weights"
      = Some [1; 2; 3; 4]%float)
  /\ exists s',
       on_epoch_end s = (Ok tt, s')
       /\ controller s' = update (controller s) (_current_tokens (self s)) 0.75
       /\ calls s' = calls s ++ [CallUpdate (_current_tokens (self s)) 0.75]
       /\ (forall name,
             scope (context s') !! name
             = match backup !! name with
               | Some value => Some value
               | None => scope (context s) !! name
               end)
       /\ (forall name,
             var_shape (optimize_graph (context s')) !! name
             = match shapes !! name with
               | Some sh => Some sh
               | None => var_shape (optimize_graph (context s)) !! name
               end)
       /\ _param_backup (self s') = Some ∅
       /\ _param_shape_backup (self s') = Some ∅
       /\ _current_tokens (self s') = _current_tokens (self s)
       /\ skip_training (context s') = skip_training (context s)
       /\ compiled (context s') = S (compiled (context s)).
Proof.
  intros s backup shapes. split; [conjuncts; vm_refl|].
  apply (epoch_end_writes_ledger_back s [0.5; 0.75]%float 0.75%float backup shapes);
    vm_refl.
Defined.

(** ** The final branch at its first tensor (lines 223-227) *)

(** X14.  At [epoch_id = end_epoch], when the tensor ledger holds an entry
    and the strategy has no attribute [param_backup] (this class sets
    none), [on_epoch_end] raises AttributeError at the first entry (line
    227) and leaves everything as it was: no tensor and no shape is
    written back, and the best tokens are not applied. *)
Theorem final_branch_stops_at_first_tensor
    `{GraphWrapper, Pruner, Controller} (s : State) backup :
  epoch_id (context s) = end_epoch (self s) ->
  _param_backup (self s) = Some backup ->
  backup <> ∅ ->
  param_backup (self s) = None ->
  on_epoch_end s = (Raise AttributeError, s).
Proof.
  intros He Hb Hne Hin.
  rewrite on_epoch_end_final;
    [|by unfold end_guard; rewrite He, Z.ltb_irrefl, andb_false_r|done].
  revert Hb Hin. destruct s as [st c ct cl]. run_M. intros Hb Hin.
  unfold final_commit. run_M. rewrite Hb. run_M.
  destruct (map_to_list backup) as [|kv l] eqn:Hl.
  { by apply map_to_list_empty_iff in Hl. }
  cbn [for_each]. unfold bind at 1 2 3. unfold attr at 1. cbn [self].
  by rewrite Hin.
Qed.

(** The mixed sample network at its final epoch, with the trial that
    [on_epoch_begin] opened there. *)
Lemma final_branch_stops_at_first_tensor_witness :
  let s := Sample.final_open in
  let backup : gmap string Tensor := {[ "conv1_weights" := [1; 2; 3; 4]%float ]} in
  (epoch_id (context s) = end_epoch (self s)
   /\ _param_backup (self s) = Some backup
   /\ param_backup (self s) = None)
  /\ on_epoch_end s = (Raise AttributeError, s).
Proof.
  intros s backup. split; [conjuncts; vm_refl|].
  apply (final_branch_stops_at_first_tensor s backup); [vm_refl|vm_refl| |vm_refl].
  apply insert_non_empty.
Defined.

(** ** The hooks outside the search window (lines 171-173, 200-202, 223) *)

(** X15.  Before [start_epoch] and after [end_epoch] the hooks do nothing:
    [on_epoch_begin] returns with the state as it was, and so does
    [on_epoch_end], with one exception: the final branch of [on_epoch_end]
    is guarded by [epoch_id == end_epoch] alone, so it runs at [end_epoch]
    also when that is before [start_epoch]. *)
Theorem hooks_idle_outside_window
    `{GraphWrapper, Pruner, Controller, Matcher} (s : State) :
  epoch_id (context s) < start_epoch (self s)
  \/ end_epoch (self s) < epoch_id (context s) ->
  on_epoch_begin s = (Ok tt, s)
  /\ (epoch_id (context s) <> end_epoch (self s) -> on_epoch_end s = (Ok tt, s))
  /\ (epoch_id (context s) = end_epoch (self s) -> on_epoch_end s = final_commit s).
Proof.
  intros Hout.
  assert (begin_guard (self s) (context s) = false) as Hb.
  { unfold begin_guard. destruct Hout as [Hlt|Hgt].
    - by apply Z.leb_gt in Hlt as ->.
    - apply Z.leb_gt in Hgt as ->. by rewrite andb_false_r. }
  assert (end_guard (self s) (context s) = false) as He.
  { unfold end_guard. destruct Hout as [Hlt|Hgt].
    - by apply Z.leb_gt in Hlt as ->.
    - assert (end_epoch (self s) <= epoch_id (context s)) as Hle by lia.
      apply Z.ltb_ge in Hle as ->. by rewrite andb_false_r. }
  split; [by apply on_epoch_begin_idle|]. split; intros Hep.
  - by apply on_epoch_end_idle.
  - by apply on_epoch_end_final.
Qed.

(** The mixed sample network at epoch 5, after its window 0 to 2. *)
Lemma hooks_idle_outside_window_witness :
  let s := Sample.at_epoch 5 Sample.mixed_ready in
  (epoch_id (context s) < start_epoch (self s)
   \/ end_epoch (self s) < epoch_id (context s))
  /\ on_epoch_begin s = (Ok tt, s)
  /\ (epoch_id (context s) <> end_epoch (self s) -> on_epoch_end s = (Ok tt, s))
  /\ (epoch_id (context s) = end_epoch (self s) -> on_epoch_end s = final_commit s).
Proof.
  intros s. split; [right; by vm_compute|].
  apply (hooks_idle_outside_window s). right. by vm_compute.
Defined.

(** ** The configuration over a run *)

Section Configuration.
Context `{GraphWrapper, Pruner, Controller, Matcher}.

#[global] Instance same_config_refl : Reflexive same_config.
Proof. by intros s. Qed.
#[global] Instance same_config_trans : Transitive same_config.
Proof.
  intros s1 s2 s3 (?&?&?&?&?&?) (?&?&?&?&?&?). repeat split; congruence.
Qed.

Lemma same_config_of_strategy {A} (m : M State A) :
  respects same_strategy m -> respects same_config m.
Proof.
  intros Hm s. destruct (Hm s) as (Hs & _). unfold same_config. by rewrite Hs.
Qed.

Lemma same_config_controller_reset range_table tokens :
  respects same_config (controller_reset range_table tokens).
Proof. by intros s. Qed.

Lemma same_config_controller_next_tokens :
  respects same_config controller_next_tokens.
Proof. by intros s. Qed.

Lemma same_config_controller_update tokens reward :
  respects same_config (controller_update tokens reward).
Proof. by intros s. Qed.

Lemma same_config_set_pruned_param_names f :
  respects same_config (on_self (fun st => set_pruned_param_names (f st) st)).
Proof. by intros s. Qed.

Lemma same_config_set_current_tokens v :
  respects same_config (on_self (set_current_tokens v)).
Proof. by intros s. Qed.

Lemma same_config_set_range_table v :
  respects same_config (on_self (set_range_table v)).
Proof. by intros s. Qed.

Lemma same_config_set_param_backup v :
  respects same_config (on_self (set_param_backup v)).
Proof. by intros s. Qed.

Lemma same_config_set_param_shape_backup v :
  respects same_config (on_self (set_param_shape_backup v)).
Proof. by intros s. Qed.
End Configuration.

#[export] Hint Resolve same_config_controller_reset
  same_config_controller_next_tokens same_config_controller_update
  same_config_set_pruned_param_names same_config_set_current_tokens
  same_config_set_range_table same_config_set_param_backup
  same_config_set_param_shape_backup : frames.

(** Frame a hook for the configuration. *)
Ltac frame_config :=
  repeat first
    [ solve [auto with frames typeclass_instances]
    | apply same_config_of_strategy; solve [auto with frames]
    | apply respects_bind; [typeclasses eauto..| |intros]
    | apply respects_for_each; [typeclasses eauto..|intros]
    | match goal with
      | |- respects _ (match ?x with _ => _ end) => destruct x
      end ].

Section HooksConfiguration.
Context `{GraphWrapper, Pruner, Controller, Matcher}.

Lemma on_compression_begin_config fuel :
  respects same_config (on_compression_begin fuel).
Proof. unfold on_compression_begin. frame_config. Qed.

Lemma on_epoch_begin_config : respects same_config on_epoch_begin.
Proof. unfold on_epoch_begin. frame_config. Qed.

Lemma on_epoch_end_config : respects same_config on_epoch_end.
Proof. unfold on_epoch_end, report_and_restore. frame_config. Qed.

Lemma reachable_config init (s : State) :
  reachable init s ->
  start_epoch (self s) = start_epoch init
  /\ end_epoch (self s) = end_epoch init
  /\ _min_ratio (self s) = _min_ratio init
  /\ _max_ratio (self s) = _max_ratio init
  /\ _metric_name (self s) = _metric_name init
  /\ pruned_params (self s) = pruned_params init.
Proof.
  induction 1 as [| fuel s _ IH | s _ IH | s _ IH | s c _ IH]; try done.
  - pose proof (on_compression_begin_config fuel s) as Hc.
    unfold same_config in Hc. intuition congruence.
  - pose proof (on_epoch_begin_config s) as Hc.
    unfold same_config in Hc. intuition congruence.
  - pose proof (on_epoch_end_config s) as Hc.
    unfold same_config in Hc. intuition congruence.
Qed.
End HooksConfiguration.

(** X16.  No hook writes to the configuration given to the constructor.
    In every state of a run (the three hooks in any order and number,
    however each ends, and any change to the context between them) the
    epochs of the window, the two bounds of the band, the metric name and
    the pattern of the strategy are the arguments of [__init__]. *)
Theorem hooks_keep_configuration
    `{GraphWrapper, Pruner, Controller, Matcher}
    first final lo hi metric pattern retrain inherited (s : State) :
  reachable (__init__ first final lo hi metric pattern retrain inherited) s ->
  start_epoch (self s) = first
  /\ end_epoch (self s) = final
  /\ _min_ratio (self s) = lo
  /\ _max_ratio (self s) = hi
  /\ _metric_name (self s) = metric
  /\ pruned_params (self s) = pattern.
Proof. intros Hreach. by apply reachable_config in Hreach. Qed.

(** The mixed sample network after [on_compression_begin] and a trial. *)
Lemma hooks_keep_configuration_witness :
  let init := __init__ 0 2 0.5 0.7 "top1_acc" "conv.*_weights" 3 None in
  let s := Sample.mixed_restored in
  reachable init s
  /\ start_epoch (self s) = 0
  /\ end_epoch (self s) = 2
  /\ _min_ratio (self s) = 0.5%float
  /\ _max_ratio (self s) = 0.7%float
  /\ _metric_name (self s) = "top1_acc"
  /\ pruned_params (self s) = "conv.*_weights".
Proof.
  intros init s.
  assert (reachable init Sample.mixed_ready) as H1.
  { vm_cast_no_check
      (reach_compression_begin init 54 _
         (reach_new init (Sample.sample_context Sample.mixed_net 0)
            (Sample.mkProposer [[50]; [25]; [30]] [75] []) [])). }
  assert (reachable init Sample.mixed_trial) as H2.
  { vm_cast_no_check (reach_epoch_begin init _ H1). }
  assert (reachable init s) as H3.
  { vm_cast_no_check (reach_epoch_end init _ H2). }
  split; [exact H3|].
  exact (hooks_keep_configuration 0 2 0.5 0.7 "top1_acc" "conv.*_weights" 3 None s H3).
Defined.

(** ** The calls to the controller *)

(** X17.  Each hook calls the controller at most once, however it ends,
    and each with a method of its own: [on_compression_begin] with
    [reset], on a range table and a token vector that are equal;
    [on_epoch_begin] with [next_tokens]; [on_epoch_end] with [update], on
    the value [_current_tokens] had when the hook was entered. *)
Theorem hooks_controller_protocol
    `{GraphWrapper, Pruner, Controller, Matcher} fuel (s : State) :
  ((controller (on_compression_begin fuel s).2 = controller s
    /\ calls (on_compression_begin fuel s).2 = calls s)
   \/ exists tokens,
        controller (on_compression_begin fuel s).2 = reset (controller s) tokens tokens
        /\ calls (on_compression_begin fuel s).2 = calls s ++ [CallReset tokens tokens])
  /\ ((controller (on_epoch_begin s).2 = controller s
       /\ calls (on_epoch_begin s).2 = calls s)
      \/ (controller (on_epoch_begin s).2 = (next_tokens (controller s)).2
          /\ calls (on_epoch_begin s).2 = calls s ++ [CallNextTokens]))
  /\ ((controller (on_epoch_end s).2 = controller s
       /\ calls (on_epoch_end s).2 = calls s)
      \/ exists reward,
           controller (on_epoch_end s).2
           = update (controller s) (_current_tokens (self s)) reward
           /\ calls (on_epoch_end s).2
              = calls s ++ [CallUpdate (_current_tokens (self s)) reward]).
Proof.
  split; [|split].
  - rewrite on_compression_begin_unfold.
    pose proof (get_init_tokens_respects same_strategy fuel (or_introl eq_refl)
                  (resolved s)) as (_ & Hctl & Hcalls).
    destruct (_get_init_tokens fuel (resolved s)) as [[tokens| |] s2]; cbn in *.
    + right. exists tokens. by rewrite Hctl, Hcalls.
    + left. by rewrite Hctl, Hcalls.
    + left. by rewrite Hctl, Hcalls.
  - destruct (begin_guard (self s) (context s)) eqn:Hg;
      [|left; by rewrite on_epoch_begin_idle].
    right.
    destruct (_tokens_to_ratios (next_tokens (controller s)).1) as [ratios|e|] eqn:Hr.
    + by rewrite (on_epoch_begin_fires _ _ Hg Hr).
    + revert Hg Hr. destruct s as [st c ct cl]. run_M. intros Hg Hr.
      unfold on_epoch_begin. run_M. rewrite Hg. run_M. by rewrite Hr.
    + revert Hg Hr. destruct s as [st c ct cl]. run_M. intros Hg Hr.
      unfold on_epoch_begin. run_M. rewrite Hg. run_M. by rewrite Hr.
  - destruct (end_guard (self s) (context s)) eqn:Hg.
    + rewrite (on_epoch_end_search _ Hg). apply report_and_restore_calls.
    + left. destruct (decide (epoch_id (context s) = end_epoch (self s))) as [He|He].
      * rewrite (on_epoch_end_final _ Hg He).
        by destruct (context_only_final_commit s) as (_ & ? & ?).
      * by rewrite (on_epoch_end_idle _ Hg He).
Qed.
